(** * Importer.start: issues of a repository copied to a spreadsheet tab

    A shallow embedding of [Importer.start], the only operation of the
    repository.  Two builds of it are kept side by side in the tree:

    - the TypeScript source, module [Ts] below;
    - the compiled [Importer.js], module [Js] below.

    They share the input check, the paging loop, the clearing of the sheet
    and the two appends; they differ in the metadata query, in the default of
    the story points, in the ninth column of a row and in the header texts.
    The common procedure is written once, in section [Procedure], over a
    [Build] record that holds what differs.

    The remote services are oracles of an environment [Env]; every call made
    to them is recorded, in order, in a trace of [event]s.  [Core.info],
    [Core.startGroup] and [Core.endGroup] only write to the job log and are
    left out; [Core.setFailed] is recorded.  The [do ... while] loop over the
    pages has no bound in the source: it takes a budget of iterations here,
    and a run that exhausts it is [Running] (the promise is still pending). *)

From Stdlib Require Import List String Bool Arith ZArith QArith Lia Sorted.
Import ListNotations.

Local Open Scope nat_scope.
Local Open Scope string_scope.
Local Open Scope list_scope.

(** ** JavaScript values that reach a sheet cell *)

(** A JavaScript number that came through JSON is a finite value; it is
    falsy exactly when it is zero. *)
Definition number := Q.

Inductive cell : Type :=
| CNumber (q : number)
| CString (s : string)
| CUndefined
| CNull.

Definition row := list cell.

Definition truthy_number (q : number) : bool := negb (Qeq_bool q 0).

Definition truthy_string (s : string) : bool := negb (String.eqb s "").

(** [x || d] where [x] is a number or undefined and [d] a string. *)
Definition number_or (x : option number) (d : string) : cell :=
  match x with
  | Some q => if truthy_number q then CNumber q else CString d
  | None => CString d
  end.

(** [x || d] where [x] is a string or undefined and [d] a string. *)
Definition string_or (x : option string) (d : string) : cell :=
  match x with
  | Some s => if truthy_string s then CString s else CString d
  | None => CString d
  end.

(** [Array.prototype.join]: an undefined element is joined as the empty
    string. *)
Definition join_elt (x : option string) : string :=
  match x with Some s => s | None => "" end.

Fixpoint join (sep : string) (xs : list (option string)) : string :=
  match xs with
  | [] => ""
  | [x] => join_elt x
  | x :: rest => (join_elt x ++ sep ++ join sep rest)%string
  end.

(** [a?.f] for a field read that yields a string, as a cell. *)
Definition opt_string_cell {A} (a : option A) (f : A -> string) : cell :=
  match a with Some x => CString (f x) | None => CUndefined end.

(** ** Issues as the listing endpoint returns them *)

Module Label.
Record t := { name : option string }.
End Label.

Module Assignee.
Record t := { login : string }.
End Assignee.

Module Milestone.
Record t := { title : string; state : string; due_on : option string }.
End Milestone.

Module Issue.
Record t := {
  number : Z;
  state : string;
  title : string;
  html_url : string;
  labels : list Label.t;
  assignees : list Assignee.t;
  milestone : option Milestone.t;
  node_id : string;
  (* present (an object, hence truthy) on pull requests only *)
  pull_request : option string
}.
End Issue.

Definition is_pull_request (value : Issue.t) : bool :=
  match Issue.pull_request value with Some _ => true | None => false end.

(** [value.milestone?.due_on]: undefined without a milestone, null for a
    milestone that has no due date. *)
Definition due_on_cell (m : option Milestone.t) : cell :=
  match m with
  | None => CUndefined
  | Some ms =>
      match Milestone.due_on ms with
      | Some d => CString d
      | None => CNull
      end
  end.

(** ** Errors, events and the monad of a run *)

Inductive error : Type :=
| Error (message : string)          (* new Error(message) *)
| TypeError (reading : string)      (* property read on null or undefined *)
| Rejection (reason : string).      (* a remote call that failed *)

Inductive event : Type :=
| ListForRepo (owner repo state : string) (page : nat)
| Graphql (id : string)
| SheetsClear (spreadsheetId range : string)
| SheetsAppend (spreadsheetId range : string) (values : list row)
| SetFailed (e : error).

Definition trace := list event.

Definition is_network_call (ev : event) : bool :=
  match ev with
  | SetFailed _ => false
  | _ => true
  end.

Definition is_list_call (ev : event) : bool :=
  match ev with ListForRepo _ _ _ _ => true | _ => false end.

Definition is_graphql_call (ev : event) : bool :=
  match ev with Graphql _ => true | _ => false end.

Definition is_sheets_call (ev : event) : bool :=
  match ev with
  | SheetsClear _ _ | SheetsAppend _ _ _ => true
  | _ => false
  end.

Definition is_set_failed (ev : event) : bool :=
  match ev with SetFailed _ => true | _ => false end.

(** The run reported a failure. *)
Definition failed (t : trace) : bool := existsb is_set_failed t.

(** The rows of the first append call of a trace. *)
Fixpoint first_append (t : trace) : option (list row) :=
  match t with
  | [] => None
  | SheetsAppend _ _ values :: _ => Some values
  | _ :: t' => first_append t'
  end.

(** Some metadata query comes after some call to the sheet. *)
Fixpoint query_after_write (t : trace) : bool :=
  match t with
  | [] => false
  | ev :: t' =>
      (is_sheets_call ev && existsb is_graphql_call t') || query_after_write t'
  end.

(** The stage of the procedure a call belongs to, in the order of the
    code: listing, clearing, metadata queries, appends, failure report. *)
Definition stage (ev : event) : nat :=
  match ev with
  | ListForRepo _ _ _ _ => 0
  | SheetsClear _ _ => 1
  | Graphql _ => 2
  | SheetsAppend _ _ _ => 3
  | SetFailed _ => 4
  end.

Definition stage_le (a b : event) : Prop := stage a <= stage b.

(** What a block of the procedure has come to. *)
Inductive outcome (A : Type) : Type :=
| Ok (a : A)
| Throw (e : error)
| Running.

Arguments Ok {A} a.
Arguments Throw {A} e.
Arguments Running {A}.

(** A computation: the calls it made, and what it has come to. *)
Definition M (A : Type) : Type := trace * outcome A.

Definition ret {A} (a : A) : M A := ([], Ok a).

Definition throw {A} (e : error) : M A := ([], Throw e).

Definition bind {A B} (m : M A) (k : A -> M B) : M B :=
  match m with
  | (t1, Ok a) => let (t2, r) := k a in (t1 ++ t2, r)
  | (t1, Throw e) => (t1, Throw e)
  | (t1, Running) => (t1, Running)
  end.

Declare Scope run_scope.
Delimit Scope run_scope with run.
Notation "x <- m ;; k" := (bind m (fun x => k))
  (at level 61, m at next level, right associativity) : run_scope.
Notation "m ;;; k" := (bind m (fun _ => k))
  (at level 61, right associativity) : run_scope.
Local Open Scope run_scope.

(** What a call comes to when it cannot be left running: a remote call
    answered, or a local expression evaluated. *)
Inductive result (A : Type) : Type :=
| Value (a : A)
| Raise (e : error).

Arguments Value {A} a.
Arguments Raise {A} e.

(** A local expression, which makes no call. *)
Definition eval {A} (r : result A) : M A :=
  match r with
  | Value a => ([], Ok a)
  | Raise e => ([], Throw e)
  end.

(** An awaited call: the call is recorded, then its answer is returned or
    thrown. *)
Definition await {A} (ev : event) (r : result A) : M A :=
  match r with
  | Value a => ([ev], Ok a)
  | Raise e => ([ev], Throw e)
  end.

(** The state of the promise returned by an [async] function. *)
Inductive promise : Type :=
| Resolved
| Rejected (e : error)
| Pending.

(** ** The environment of a run *)

(** The inputs of the action, the repository of the workflow and the two
    remote services.  A service answers a call from its arguments. *)
Record Env (Response : Type) : Type := {
  getInput : string -> string;       (* the empty string for a missing input *)
  context_repo_owner : string;
  context_repo_repo : string;
  issues_listForRepo : string -> string -> string -> nat -> result (list Issue.t);
  graphql : string -> result Response;
  JSON_parse : string -> result unit;
  values_clear : string -> string -> result unit;
  values_append : string -> string -> list row -> result unit
}.

Arguments getInput {Response} _ _.
Arguments context_repo_owner {Response} _.
Arguments context_repo_repo {Response} _.
Arguments issues_listForRepo {Response} _ _ _ _ _.
Arguments graphql {Response} _ _.
Arguments JSON_parse {Response} _ _.
Arguments values_clear {Response} _ _ _.
Arguments values_append {Response} _ _ _ _.

(** What one build of the importer fixes: the shape of the answer to its
    metadata query, what it reads from it, the layout of a row and the
    header. *)
Record Build : Type := MkBuild {
  Response : Type;
  Metadata : Type;
  extract : Response -> result Metadata;
  mkRow : Issue.t -> list (option string) -> list (option string) -> Metadata -> row;
  header : row
}.

Definition INPUT_SERVICE_ACCOUNT_JSON := "google-api-service-account-credentials".
Definition INPUT_DOCUMENT_ID := "document-id".
Definition INPUT_SHEET_NAME := "sheet-name".

Definition missing_inputs_message :=
  "🚨 Some Inputs missed. Please check project README.".

(** The tab of the spreadsheet, as the rows it holds.  [clear] empties it;
    [append] looks for the table at the top of the tab and writes the new
    rows beneath its last row. *)
Definition sheet := list row.

Definition sheet_step (s : sheet) (ev : event) : sheet :=
  match ev with
  | SheetsClear _ _ => []
  | SheetsAppend _ _ values => s ++ values
  | _ => s
  end.

Definition sheet_after (t : trace) (s : sheet) : sheet :=
  fold_left sheet_step t s.

(** The header as the specification prints it. *)
Definition spec_header : row :=
  [ CString "#"; CString "Status"; CString "Type"; CString "Title";
    CString "URI"; CString "Labels"; CString "Assignees";
    CString "Milestone"; CString "Status"; CString "Story Points";
    CString "Deadline" ].

Section Procedure.

Variable B : Build.
Variable env : Env (Response B).

(** Each of the three inputs is given. *)
Definition inputs_present : Prop :=
  getInput env INPUT_SERVICE_ACCOUNT_JSON <> "" /\
  getInput env INPUT_DOCUMENT_ID <> "" /\
  getInput env INPUT_SHEET_NAME <> "".

(** The three inputs are read and checked. *)
Definition checkInputs : M (string * string * string) :=
  let serviceAccountCredentials := getInput env INPUT_SERVICE_ACCOUNT_JSON in
  let documentId := getInput env INPUT_DOCUMENT_ID in
  let sheetName := getInput env INPUT_SHEET_NAME in
  if negb (truthy_string serviceAccountCredentials)
     || negb (truthy_string documentId)
     || negb (truthy_string sheetName)
  then throw (Error missing_inputs_message)
  else ret (serviceAccountCredentials, documentId, sheetName).

(** [do { issuesPage = await listForRepo({state: "all", page});
         issuesData = issuesData.concat(issuesPage.data); page++ }
    while (issuesPage.data.length)] *)
Fixpoint fetchPages (budget page : nat) (issuesData : list Issue.t)
  : M (list Issue.t) :=
  match budget with
  | O => ([], Running)
  | S budget' =>
      let owner := context_repo_owner env in
      let repo := context_repo_repo env in
      issuesPage <- await (ListForRepo owner repo "all" page)
                          (issues_listForRepo env owner repo "all" page) ;;
      let issuesData := issuesData ++ issuesPage in
      if (0 <? List.length issuesPage)%nat
      then fetchPages budget' (S page) issuesData
      else ret issuesData
  end.

(** The listing call for a page, and its answer. *)
Definition list_call (page : nat) : event :=
  ListForRepo (context_repo_owner env) (context_repo_repo env) "all" page.

Definition page_of (page : nat) : result (list Issue.t) :=
  issues_listForRepo env (context_repo_owner env) (context_repo_repo env)
    "all" page.

Definition page_items (page : nat) : list Issue.t :=
  match page_of page with Value l => l | Raise _ => [] end.

(** [for (const value of issuesData) { ... }]: the names of the labels and
    the logins of the assignees are collected into two arrays, the metadata
    query is awaited and read, and only then is a pull request skipped
    ([continue]); for any other issue a row is pushed.  In the row,
    [Object.keys(labels).map((k) => labels[k])] walks the indices of the array
    in order, so it is the array [labels] itself, and likewise for
    [assignees]. *)
Fixpoint formRows (issuesData : list Issue.t) (issueSheetsData : list row)
  : M (list row) :=
  match issuesData with
  | [] => ret issueSheetsData
  | value :: rest =>
      let labels := map Label.name (Issue.labels value) in
      let assignees :=
        map (fun a => Some (Assignee.login a)) (Issue.assignees value) in
      response <- await (Graphql (Issue.node_id value))
                        (graphql env (Issue.node_id value)) ;;
      metadata <- eval (extract B response) ;;
      if is_pull_request value
      then formRows rest issueSheetsData
      else formRows rest
             (issueSheetsData ++ [mkRow B value labels assignees metadata])
  end.

(** The row of one issue, from the answer to its metadata query: what one
    turn of the loop pushes for an issue that is not a pull request. *)
Definition enriched_row (value : Issue.t) : option row :=
  match graphql env (Issue.node_id value) with
  | Raise _ => None
  | Value response =>
      match extract B response with
      | Raise _ => None
      | Value metadata =>
          Some (mkRow B value
                  (map Label.name (Issue.labels value))
                  (map (fun a => Some (Assignee.login a))
                       (Issue.assignees value))
                  metadata)
      end
  end.

Definition query_call (value : Issue.t) : event :=
  Graphql (Issue.node_id value).

Definition not_pull_request (value : Issue.t) : bool :=
  negb (is_pull_request value).

(** The body of the [try] block: the inputs are checked; the pages are
    fetched from page 1 with an empty [issuesData]; the credentials are parsed
    for [GoogleAuth]; the sheet is cleared; the rows are formed; the header is
    appended; the rows are appended. *)
Definition start_try (budget : nat) : M unit :=
  inputs <- checkInputs ;;
  let '(serviceAccountCredentials, documentId, sheetName) := inputs in
  issuesData <- fetchPages budget 1 [] ;;
  eval (JSON_parse env serviceAccountCredentials) ;;;
  await (SheetsClear documentId sheetName)
        (values_clear env documentId sheetName) ;;;
  issueSheetsData <- formRows issuesData [] ;;
  await (SheetsAppend documentId (sheetName ++ "!A1:1")%string [header B])
        (values_append env documentId (sheetName ++ "!A1:1")%string [header B]) ;;;
  await (SheetsAppend documentId (sheetName ++ "!A1:1")%string issueSheetsData)
        (values_append env documentId (sheetName ++ "!A1:1")%string issueSheetsData) ;;;
  ret tt.

(** [try { ... } catch (error) { Core.setFailed(error); }] *)
Definition start (budget : nat) : trace * promise :=
  match start_try budget with
  | (t, Ok _) => (t, Resolved)
  | (t, Throw e) => (t ++ [SetFailed e], Resolved)
  | (t, Running) => (t, Pending)
  end.

End Procedure.

(** ** The TypeScript source *)

Module Ts.

(** The answer to the query [getStoryPointsByIssueId]: each project item
    carries the field [Status] under the alias [status] and the field
    [Story Points] under the alias [storyPoints]. *)
Record StatusValue := { color : option string; name : option string }.
Record NumberValue := { number : option Q }.
Record ProjectItem := {
  status : option StatusValue;
  storyPoints : option NumberValue
}.
Record ProjectItems := { nodes : option (list (option ProjectItem)) }.
Record Node := { id : option string; projectItems : option ProjectItems }.
Record Response := { node : option Node }.

(** [response.node.projectItems?.nodes?.[0]]: reading [projectItems] of a
    null [node] throws; past that the chain yields undefined as soon as a
    link is null or undefined. *)
Definition firstItem (response : Response) : result (option ProjectItem) :=
  match node response with
  | None => Raise (TypeError "projectItems")
  | Some n =>
      match projectItems n with
      | None => Value None
      | Some items =>
          match nodes items with
          | None => Value None
          | Some l => Value (match l with [] => None | x :: _ => x end)
          end
      end
  end.

(** The answer names no linked project item: [projectItems] is absent,
    or its [nodes] are absent or empty. *)
Definition no_linked_item (response : Response) : bool :=
  match node response with
  | None => false
  | Some n =>
      match projectItems n with
      | None => true
      | Some items =>
          match nodes items with
          | None | Some [] => true
          | Some (_ :: _) => false
          end
      end
  end.

(** [item?.status?.name] *)
Definition status_name (item : option ProjectItem) : option string :=
  match item with
  | None => None
  | Some i => match status i with None => None | Some v => name v end
  end.

(** [item?.storyPoints?.number] *)
Definition storyPoints_number (item : option ProjectItem) : option Q :=
  match item with
  | None => None
  | Some i => match storyPoints i with None => None | Some v => number v end
  end.

(** The constants [status] and [storyPoints] of the loop body. *)
Definition extract (response : Response) : result (cell * cell) :=
  match firstItem response with
  | Raise e => Raise e
  | Value item =>
      Value (string_or (status_name item) "",
             number_or (storyPoints_number item) "")
  end.

Definition mkRow (value : Issue.t) (labels assignees : list (option string))
  (metadata : cell * cell) : row :=
  let (status, storyPoints) := metadata in
  [ CNumber (inject_Z (Issue.number value));
    CString (Issue.state value);
    CString "Issue";
    CString (Issue.title value);
    CString (Issue.html_url value);
    CString (join ", " labels);
    CString (join ", " assignees);
    opt_string_cell (Issue.milestone value) Milestone.title;
    status;
    storyPoints;
    due_on_cell (Issue.milestone value) ].

Definition header : row :=
  [ CString "#"; CString "Issue Status"; CString "Type"; CString "Title";
    CString "URI"; CString "Labels"; CString "Assignees";
    CString "Milestone"; CString "Task Status"; CString "Story Points";
    CString "Deadline" ].

Definition build : Build :=
  MkBuild Response (cell * cell) extract mkRow header.

Definition start (env : Env Response) (budget : nat) : trace * promise :=
  start build env budget.

End Ts.

(** ** The compiled Importer.js *)

Module Js.

(** The answer to the query: each project item carries the field
    [Story Points] only, under the name [fieldValueByName]. *)
Record NumberValue := { number : option Q }.
Record ProjectItem := { fieldValueByName : option NumberValue }.
Record ProjectItems := { nodes : option (list (option ProjectItem)) }.
Record Node := { id : option string; projectItems : option ProjectItems }.
Record Response := { node : option Node }.

(** [response.node.projectItems?.nodes?.[0]], written out by the compiler
    as a chain of tests against null and undefined. *)
Definition firstItem (response : Response) : result (option ProjectItem) :=
  match node response with
  | None => Raise (TypeError "projectItems")
  | Some n =>
      match projectItems n with
      | None => Value None
      | Some items =>
          match nodes items with
          | None => Value None
          | Some l => Value (match l with [] => None | x :: _ => x end)
          end
      end
  end.

(** The answer names no linked project item: [projectItems] is absent,
    or its [nodes] are absent or empty. *)
Definition no_linked_item (response : Response) : bool :=
  match node response with
  | None => false
  | Some n =>
      match projectItems n with
      | None => true
      | Some items =>
          match nodes items with
          | None | Some [] => true
          | Some (_ :: _) => false
          end
      end
  end.

(** [item?.fieldValueByName?.number] *)
Definition fieldValueByName_number (item : option ProjectItem) : option Q :=
  match item with
  | None => None
  | Some i =>
      match fieldValueByName i with None => None | Some v => number v end
  end.

(** The constant [storyPoints] of the loop body. *)
Definition extract (response : Response) : result cell :=
  match firstItem response with
  | Raise e => Raise e
  | Value item => Value (number_or (fieldValueByName_number item) "N/A")
  end.

Definition mkRow (value : Issue.t) (labels assignees : list (option string))
  (storyPoints : cell) : row :=
  [ CNumber (inject_Z (Issue.number value));
    CString (Issue.state value);
    CString "Issue";
    CString (Issue.title value);
    CString (Issue.html_url value);
    CString (join ", " labels);
    CString (join ", " assignees);
    opt_string_cell (Issue.milestone value) Milestone.title;
    opt_string_cell (Issue.milestone value) Milestone.state;
    storyPoints;
    due_on_cell (Issue.milestone value) ].

Definition header : row :=
  [ CString "#"; CString "Status"; CString "Type"; CString "Title";
    CString "URI"; CString "Labels"; CString "Assignees";
    CString "Milestone"; CString "Status"; CString "Story Points";
    CString "Deadline" ].

Definition build : Build :=
  MkBuild Response cell extract mkRow header.

Definition start (env : Env Response) (budget : nat) : trace * promise :=
  start build env budget.

End Js.

(** ** Concrete runs *)

Module Sample.

Definition issueA : Issue.t :=
  {| Issue.number := 1; Issue.state := "open"; Issue.title := "A";
     Issue.html_url := "https://example.test/issues/1";
     Issue.labels := [ {| Label.name := Some "bug" |};
                       {| Label.name := Some "ui" |} ];
     Issue.assignees := [ {| Assignee.login := "ann" |} ];
     Issue.milestone :=
       Some {| Milestone.title := "M1"; Milestone.state := "open";
               Milestone.due_on := None |};
     Issue.node_id := "I_1"; Issue.pull_request := None |}.

Definition pullB : Issue.t :=
  {| Issue.number := 2; Issue.state := "closed"; Issue.title := "B";
     Issue.html_url := "https://example.test/pull/2";
     Issue.labels := []; Issue.assignees := []; Issue.milestone := None;
     Issue.node_id := "PR_2"; Issue.pull_request := Some "{}" |}.

(** An issue on no project board, with no label, assignee or milestone. *)
Definition issueC : Issue.t :=
  {| Issue.number := 3; Issue.state := "open"; Issue.title := "C";
     Issue.html_url := "https://example.test/issues/3";
     Issue.labels := []; Issue.assignees := []; Issue.milestone := None;
     Issue.node_id := "I_3"; Issue.pull_request := None |}.

(** [issueA] again, in a milestone that is closed. *)
Definition issueA_closed_milestone : Issue.t :=
  {| Issue.number := 1; Issue.state := "open"; Issue.title := "A";
     Issue.html_url := "https://example.test/issues/1";
     Issue.labels := [ {| Label.name := Some "bug" |};
                       {| Label.name := Some "ui" |} ];
     Issue.assignees := [ {| Assignee.login := "ann" |} ];
     Issue.milestone :=
       Some {| Milestone.title := "M1"; Milestone.state := "closed";
               Milestone.due_on := None |};
     Issue.node_id := "I_1"; Issue.pull_request := None |}.

Definition inputs (key : string) : string :=
  if String.eqb key INPUT_SERVICE_ACCOUNT_JSON then "{}"
  else if String.eqb key INPUT_DOCUMENT_ID then "doc"
  else if String.eqb key INPUT_SHEET_NAME then "Issues"
  else "".

(** The sheet name is not given. *)
Definition inputs_no_sheet (key : string) : string :=
  if String.eqb key INPUT_SERVICE_ACCOUNT_JSON then "{}"
  else if String.eqb key INPUT_DOCUMENT_ID then "doc"
  else "".

(** One page with an issue and a pull request, then an empty page. *)
Definition one_page (owner repo state : string) (page : nat)
  : result (list Issue.t) :=
  match page with
  | 1 => Value [issueA; pullB]
  | _ => Value []
  end.

(** A listing that never runs dry. *)
Definition endless (owner repo state : string) (page : nat)
  : result (list Issue.t) :=
  Value [issueA].

Definition ts_item : Ts.ProjectItem :=
  {| Ts.status := Some {| Ts.color := Some "GREEN"; Ts.name := Some "Done" |};
     Ts.storyPoints := Some {| Ts.number := Some (3 # 1) |} |}.

Definition ts_linked : Ts.Response :=
  {| Ts.node := Some
       {| Ts.id := Some "I_1";
          Ts.projectItems := Some {| Ts.nodes := Some [Some ts_item] |} |} |}.

(** What a node that is not an issue, or an issue on no board, gives. *)
Definition ts_unlinked : Ts.Response :=
  {| Ts.node := Some {| Ts.id := None; Ts.projectItems := None |} |}.

(** One linked item with the given story points. *)
Definition ts_with_points (points : option Ts.NumberValue) : Ts.Response :=
  {| Ts.node := Some
       {| Ts.id := Some "I_1";
          Ts.projectItems := Some
            {| Ts.nodes := Some
                 [ Some {| Ts.status :=
                             Some {| Ts.color := Some "GREEN";
                                     Ts.name := Some "Done" |};
                           Ts.storyPoints := points |} ] |} |} |}.

Definition ts_graphql (id : string) : result Ts.Response :=
  if String.eqb id "I_1" then Value ts_linked else Value ts_unlinked.

Definition ts_env : Env Ts.Response :=
  {| getInput := inputs;
     context_repo_owner := "octo"; context_repo_repo := "demo";
     issues_listForRepo := one_page;
     graphql := ts_graphql;
     JSON_parse := fun _ => Value tt;
     values_clear := fun _ _ => Value tt;
     values_append := fun _ _ _ => Value tt |}.

Definition ts_env_no_sheet : Env Ts.Response :=
  {| getInput := inputs_no_sheet;
     context_repo_owner := "octo"; context_repo_repo := "demo";
     issues_listForRepo := one_page;
     graphql := ts_graphql;
     JSON_parse := fun _ => Value tt;
     values_clear := fun _ _ => Value tt;
     values_append := fun _ _ _ => Value tt |}.

Definition ts_env_endless : Env Ts.Response :=
  {| getInput := inputs;
     context_repo_owner := "octo"; context_repo_repo := "demo";
     issues_listForRepo := endless;
     graphql := ts_graphql;
     JSON_parse := fun _ => Value tt;
     values_clear := fun _ _ => Value tt;
     values_append := fun _ _ _ => Value tt |}.

Definition js_item : Js.ProjectItem :=
  {| Js.fieldValueByName := Some {| Js.number := Some (3 # 1) |} |}.

Definition js_linked : Js.Response :=
  {| Js.node := Some
       {| Js.id := Some "I_1";
          Js.projectItems := Some {| Js.nodes := Some [Some js_item] |} |} |}.

Definition js_unlinked : Js.Response :=
  {| Js.node := Some {| Js.id := None; Js.projectItems := None |} |}.

Definition js_with_points (points : option Js.NumberValue) : Js.Response :=
  {| Js.node := Some
       {| Js.id := Some "I_1";
          Js.projectItems := Some
            {| Js.nodes := Some
                 [ Some {| Js.fieldValueByName := points |} ] |} |} |}.

Definition js_graphql (id : string) : result Js.Response :=
  if String.eqb id "I_1" then Value js_linked else Value js_unlinked.

Definition js_env : Env Js.Response :=
  {| getInput := inputs;
     context_repo_owner := "octo"; context_repo_repo := "demo";
     issues_listForRepo := one_page;
     graphql := js_graphql;
     JSON_parse := fun _ => Value tt;
     values_clear := fun _ _ => Value tt;
     values_append := fun _ _ _ => Value tt |}.

(** Environments in which one step fails. *)
Definition ts_env_of
  (listing : string -> string -> string -> nat -> result (list Issue.t))
  (query : string -> result Ts.Response)
  (parse : string -> result unit)
  (clear : string -> string -> result unit)
  (append : string -> string -> list row -> result unit) : Env Ts.Response :=
  {| getInput := inputs;
     context_repo_owner := "octo"; context_repo_repo := "demo";
     issues_listForRepo := listing;
     graphql := query;
     JSON_parse := parse;
     values_clear := clear;
     values_append := append |}.

(** The query for the pull request is refused. *)
Definition ts_graphql_refused (id : string) : result Ts.Response :=
  if String.eqb id "PR_2" then Raise (Rejection "rate limit")
  else ts_graphql id.

Definition ts_env_query_fails : Env Ts.Response :=
  ts_env_of one_page ts_graphql_refused (fun _ => Value tt)
    (fun _ _ => Value tt) (fun _ _ _ => Value tt).

(** The second page cannot be listed. *)
Definition second_page_fails (owner repo state : string) (page : nat)
  : result (list Issue.t) :=
  match page with
  | 1 => Value [issueA; pullB]
  | _ => Raise (Rejection "bad gateway")
  end.

Definition ts_env_listing_fails : Env Ts.Response :=
  ts_env_of second_page_fails ts_graphql (fun _ => Value tt)
    (fun _ _ => Value tt) (fun _ _ _ => Value tt).

(** The credentials are not JSON. *)
Definition ts_env_bad_credentials : Env Ts.Response :=
  ts_env_of one_page ts_graphql
    (fun _ => Raise (Error "Unexpected end of JSON input"))
    (fun _ _ => Value tt) (fun _ _ _ => Value tt).

(** Every node is unknown to the metadata service. *)
Definition ts_env_null_node : Env Ts.Response :=
  ts_env_of one_page (fun _ => Value {| Ts.node := None |})
    (fun _ => Value tt) (fun _ _ => Value tt) (fun _ _ _ => Value tt).

Definition js_env_null_node : Env Js.Response :=
  {| getInput := inputs;
     context_repo_owner := "octo"; context_repo_repo := "demo";
     issues_listForRepo := one_page;
     graphql := fun _ => Value {| Js.node := None |};
     JSON_parse := fun _ => Value tt;
     values_clear := fun _ _ => Value tt;
     values_append := fun _ _ _ => Value tt |}.

(** A repository without issues. *)
Definition no_issue (owner repo state : string) (page : nat)
  : result (list Issue.t) := Value [].

Definition ts_env_empty : Env Ts.Response :=
  ts_env_of no_issue ts_graphql (fun _ => Value tt)
    (fun _ _ => Value tt) (fun _ _ _ => Value tt).

(** A second project item, on another board. *)
Definition ts_other_item : Ts.ProjectItem :=
  {| Ts.status := Some {| Ts.color := None; Ts.name := Some "Todo" |};
     Ts.storyPoints := Some {| Ts.number := Some (8 # 1) |} |}.

(** The metadata service of [ts_env], where the issue is on two more
    boards. *)
Definition ts_graphql_more_boards (id : string) : result Ts.Response :=
  if String.eqb id "I_1"
  then Value
         {| Ts.node := Some
              {| Ts.id := Some "I_1";
                 Ts.projectItems := Some
                   {| Ts.nodes :=
                        Some [Some ts_item; Some ts_other_item; None] |} |} |}
  else Value ts_unlinked.

(** No issue is on a project board. *)
Definition js_env_unlinked : Env Js.Response :=
  {| getInput := inputs;
     context_repo_owner := "octo"; context_repo_repo := "demo";
     issues_listForRepo := one_page;
     graphql := fun _ => Value js_unlinked;
     JSON_parse := fun _ => Value tt;
     values_clear := fun _ _ => Value tt;
     values_append := fun _ _ _ => Value tt |}.

End Sample.

(** ** Calls and their answers *)

Section Calls.

Variable B : Build.
Variable env : Env (Response B).

(** The error with which the environment answers a call, when it answers
    with one. *)
Definition call_error (ev : event) : option error :=
  match ev with
  | ListForRepo owner repo state page =>
      match issues_listForRepo env owner repo state page with
      | Raise e => Some e
      | Value _ => None
      end
  | Graphql id =>
      match graphql env id with Raise e => Some e | Value _ => None end
  | SheetsClear spreadsheetId range =>
      match values_clear env spreadsheetId range with
      | Raise e => Some e
      | Value _ => None
      end
  | SheetsAppend spreadsheetId range values =>
      match values_append env spreadsheetId range values with
      | Raise e => Some e
      | Value _ => None
      end
  | SetFailed _ => None
  end.

(** A computation stops at the first call that fails: that call is its
    last, and its error is what the computation throws. *)
Definition stops_at_failure {A} (m : M A) : Prop :=
  forall t1 ev t2 e,
    fst m = t1 ++ ev :: t2 -> call_error ev = Some e ->
    t2 = [] /\ snd m = Throw e.

(** The metadata of one issue: its query, and the reading of the answer. *)
Definition enrichment (value : Issue.t) : result (Metadata B) :=
  match graphql env (Issue.node_id value) with
  | Raise e => Raise e
  | Value response => extract B response
  end.

Definition enriched (value : Issue.t) : Prop :=
  exists metadata, enrichment value = Value metadata.

End Calls.

(** ** Cells that carry nothing *)

(** A cell is empty or absent: the empty string, undefined or null. *)
Definition empty_or_absent (c : cell) : bool :=
  match c with
  | CString s => String.eqb s ""
  | CUndefined | CNull => true
  | CNumber _ => false
  end.

(** ** Answers that are read alike *)

(** The environment [env] with another metadata service. *)
Definition with_graphql {R : Type} (env : Env R) (query : string -> result R)
  : Env R :=
  {| getInput := getInput env;
     context_repo_owner := context_repo_owner env;
     context_repo_repo := context_repo_repo env;
     issues_listForRepo := issues_listForRepo env;
     graphql := query;
     JSON_parse := JSON_parse env;
     values_clear := values_clear env;
     values_append := values_append env |}.

(** Two answers of the metadata service fail alike, or are read alike by
    [read]. *)
Definition agree_on {R A : Type} (read : R -> A) (a b : result R) : Prop :=
  match a, b with
  | Value r, Value r' => read r = read r'
  | Raise e, Raise e' => e = e'
  | _, _ => False
  end.

(** * Properties *)

Section Loops.

Variable B : Build.
Variable env : Env (Response B).

(** *** The paging loop *)

Lemma fetchPages_step budget page acc :
  fetchPages B env (S budget) page acc =
  match page_of B env page with
  | Raise e => ([list_call B env page], Throw e)
  | Value [] => ([list_call B env page], Ok (acc ++ []))
  | Value (v :: l) =>
      let (t, r) := fetchPages B env budget (S page) (acc ++ v :: l) in
      (list_call B env page :: t, r)
  end.
Proof.
  unfold page_of, list_call. simpl.
  destruct (issues_listForRepo env _ _ _ page) as [[|v l]|e]; reflexivity.
Qed.

Lemma fetchPages_only_lists budget : forall page acc,
  Forall (fun ev => stage ev = 0) (fst (fetchPages B env budget page acc)).
Proof.
  induction budget as [|budget IH]; intros page acc.
  - constructor.
  - rewrite fetchPages_step.
    destruct (page_of B env page) as [[|v l]|e]; simpl;
      try (repeat constructor).
    specialize (IH (S page) (acc ++ v :: l)).
    destruct (fetchPages B env budget (S page) (acc ++ v :: l)) as [t r].
    simpl in *. constructor; [reflexivity | exact IH].
Qed.

(** The loop is still running only when every page asked so far was
    answered and was not empty. *)
Lemma fetchPages_running budget : forall page acc t,
  fetchPages B env budget page acc = (t, Running) ->
  forall k, k < budget ->
  exists v l, page_of B env (page + k) = Value (v :: l).
Proof.
  induction budget as [|budget IH]; intros page acc t Hrun k Hk; [lia|].
  rewrite fetchPages_step in Hrun.
  destruct (page_of B env page) as [[|v l]|e] eqn:Hp; try discriminate.
  destruct (fetchPages B env budget (S page) (acc ++ v :: l)) as [t' r] eqn:Hf.
  inversion Hrun; subst.
  destruct k as [|k].
  - rewrite Nat.add_0_r. eauto.
  - replace (page + S k) with (S page + k) by lia.
    eapply IH; [exact Hf | lia].
Qed.

(** [n] pages that are not empty and then an empty one: [n + 1] calls,
    for the pages in order, and the items of the first [n] pages in
    order. *)
Lemma fetchPages_run n : forall budget page acc,
  n < budget ->
  (forall k, k < n -> exists v l, page_of B env (page + k) = Value (v :: l)) ->
  page_of B env (page + n) = Value [] ->
  fetchPages B env budget page acc =
  (map (list_call B env) (seq page (S n)),
   Ok (acc ++ List.concat (map (page_items B env) (seq page n)))).
Proof.
  induction n as [|n IH]; intros budget page acc Hb Hfull Hempty;
    (destruct budget as [|budget]; [lia|]); rewrite fetchPages_step.
  - rewrite Nat.add_0_r in Hempty. rewrite Hempty. reflexivity.
  - destruct (Hfull 0 ltac:(lia)) as (v & l & Hp).
    rewrite Nat.add_0_r in Hp. rewrite Hp.
    rewrite (IH budget (S page) (acc ++ v :: l)); [| lia | |].
    + cbn [seq map List.concat]. unfold page_items at 2. rewrite Hp.
      rewrite <- app_assoc. reflexivity.
    + intros k Hk. replace (S page + k) with (page + S k) by lia.
      apply Hfull. lia.
    + replace (S page + n) with (page + S n) by lia. exact Hempty.
Qed.

(** *** The loop over the issues *)

Lemma formRows_step value rest acc :
  formRows B env (value :: rest) acc =
  match graphql env (Issue.node_id value) with
  | Raise e => ([query_call value], Throw e)
  | Value response =>
      match extract B response with
      | Raise e => ([query_call value], Throw e)
      | Value metadata =>
          let (t, r) :=
            formRows B env rest
              (if is_pull_request value then acc
               else acc ++ [mkRow B value
                              (map Label.name (Issue.labels value))
                              (map (fun a => Some (Assignee.login a))
                                   (Issue.assignees value))
                              metadata]) in
          (query_call value :: t, r)
      end
  end.
Proof.
  unfold query_call. simpl.
  destruct (graphql env (Issue.node_id value)) as [response|e]; simpl;
    [|reflexivity].
  destruct (extract B response) as [metadata|e]; simpl; [|reflexivity].
  destruct (is_pull_request value);
    match goal with |- context [formRows B env rest ?a] =>
      destruct (formRows B env rest a) end; reflexivity.
Qed.

Lemma formRows_not_running issues : forall acc,
  snd (formRows B env issues acc) <> Running.
Proof.
  induction issues as [|value rest IH]; intros acc.
  - discriminate.
  - rewrite formRows_step.
    destruct (graphql env (Issue.node_id value)) as [response|e];
      [|discriminate].
    destruct (extract B response) as [metadata|e]; [|discriminate].
    match goal with |- context [formRows B env rest ?a] =>
      specialize (IH a); destruct (formRows B env rest a) end.
    exact IH.
Qed.

Lemma formRows_only_queries issues : forall acc,
  Forall (fun ev => stage ev = 2) (fst (formRows B env issues acc)).
Proof.
  induction issues as [|value rest IH]; intros acc.
  - constructor.
  - rewrite formRows_step.
    destruct (graphql env (Issue.node_id value)) as [response|e];
      [|repeat constructor].
    destruct (extract B response) as [metadata|e]; [|repeat constructor].
    match goal with |- context [formRows B env rest ?a] =>
      specialize (IH a); destruct (formRows B env rest a) end.
    constructor; [reflexivity | exact IH].
Qed.

(** When the loop completes it has queried every issue, pull request or
    not, in order, and has pushed the row of every issue that is not a
    pull request, in order. *)
Lemma formRows_ok issues : forall acc t rows,
  formRows B env issues acc = (t, Ok rows) ->
  t = map query_call issues /\
  exists pushed,
    rows = acc ++ pushed /\
    Forall2 (fun value r => enriched_row B env value = Some r)
            (filter not_pull_request issues) pushed.
Proof.
  induction issues as [|value rest IH]; intros acc t rows Hrun.
  - inversion Hrun; subst. split; [reflexivity|].
    exists []. rewrite app_nil_r. split; [reflexivity | constructor].
  - rewrite formRows_step in Hrun. cbn [filter map].
    destruct (graphql env (Issue.node_id value)) as [response|e] eqn:Hq;
      [|discriminate].
    destruct (extract B response) as [metadata|e] eqn:Hx; [|discriminate].
    match type of Hrun with context [formRows B env rest ?a] =>
      destruct (formRows B env rest a) as [t' r'] eqn:Hrest end.
    inversion Hrun; subst.
    apply IH in Hrest. destruct Hrest as (-> & pushed & -> & Hall).
    split; [reflexivity|].
    unfold not_pull_request at 1.
    destruct (is_pull_request value); cbn [negb].
    + exists pushed. split; [reflexivity | exact Hall].
    + eexists (_ :: pushed). rewrite <- app_assoc. split; [reflexivity|].
      constructor; [|exact Hall].
      unfold enriched_row. rewrite Hq, Hx. reflexivity.
Qed.

Lemma not_pull_request_count (issues : list Issue.t) :
  List.length (filter not_pull_request issues) =
  List.length issues - List.length (filter is_pull_request issues).
Proof.
  induction issues as [|value rest IH]; [reflexivity|].
  unfold not_pull_request in *. cbn [filter].
  assert (Hle : List.length (filter is_pull_request rest) <= List.length rest).
  { clear. induction rest as [|x r IHr]; cbn [filter]; [lia|].
    destruct (is_pull_request x); cbn [List.length]; lia. }
  destruct (is_pull_request value); cbn [negb List.length]; lia.
Qed.

(** *** The whole body, one case for each place where it can stop *)

Lemma start_try_unfold budget :
  start_try B env budget =
  let serviceAccountCredentials := getInput env INPUT_SERVICE_ACCOUNT_JSON in
  let documentId := getInput env INPUT_DOCUMENT_ID in
  let sheetName := getInput env INPUT_SHEET_NAME in
  let range := (sheetName ++ "!A1:1")%string in
  let clear := SheetsClear documentId sheetName in
  let addHeader := SheetsAppend documentId range [header B] in
  if negb (truthy_string serviceAccountCredentials)
     || negb (truthy_string documentId)
     || negb (truthy_string sheetName)
  then ([], Throw (Error missing_inputs_message))
  else
    match fetchPages B env budget 1 [] with
    | (tl, Running) => (tl, Running)
    | (tl, Throw e) => (tl, Throw e)
    | (tl, Ok issuesData) =>
        match JSON_parse env serviceAccountCredentials with
        | Raise e => (tl, Throw e)
        | Value _ =>
            match values_clear env documentId sheetName with
            | Raise e => (tl ++ [clear], Throw e)
            | Value _ =>
                match formRows B env issuesData [] with
                | (tq, Running) => (tl ++ clear :: tq, Running)
                | (tq, Throw e) => (tl ++ clear :: tq, Throw e)
                | (tq, Ok rows) =>
                    match values_append env documentId range [header B] with
                    | Raise e => (tl ++ clear :: tq ++ [addHeader], Throw e)
                    | Value _ =>
                        (tl ++ clear :: tq ++
                           [addHeader; SheetsAppend documentId range rows],
                         match values_append env documentId range rows with
                         | Raise e => Throw e
                         | Value _ => Ok tt
                         end)
                    end
                end
            end
        end
    end.
Proof.
  unfold start_try, checkInputs. cbv zeta.
  destruct (negb (truthy_string (getInput env INPUT_SERVICE_ACCOUNT_JSON))
            || negb (truthy_string (getInput env INPUT_DOCUMENT_ID))
            || negb (truthy_string (getInput env INPUT_SHEET_NAME)));
    [reflexivity|].
  cbn [ret bind app].
  destruct (fetchPages B env budget 1 []) as [tl [issuesData|e|]];
    cbn [bind]; try reflexivity.
  destruct (JSON_parse env _) as [[]|e]; cbn [eval bind app].
  2: { rewrite app_nil_r. reflexivity. }
  destruct (values_clear env _ _) as [[]|e]; cbn [await bind app].
  2: { reflexivity. }
  destruct (formRows B env issuesData []) as [tq [rows|e|]];
    cbn [bind app].
  2, 3: reflexivity.
  destruct (values_append env _ _ [header B]) as [[]|e];
    cbn [await bind app].
  2: { reflexivity. }
  destruct (values_append env _ _ rows) as [[]|e];
    cbn [await bind ret app]; reflexivity.
Qed.

(** *** Observations on the trace of a run *)

Lemma truthy_string_false s : truthy_string s = false <-> s = "".
Proof.
  unfold truthy_string. destruct (String.eqb_spec s ""); simpl; split;
    congruence.
Qed.

Lemma inputs_present_checked :
  inputs_present B env ->
  negb (truthy_string (getInput env INPUT_SERVICE_ACCOUNT_JSON))
  || negb (truthy_string (getInput env INPUT_DOCUMENT_ID))
  || negb (truthy_string (getInput env INPUT_SHEET_NAME)) = false.
Proof.
  intros (H1 & H2 & H3).
  repeat match goal with
  | H : ?x <> "" |- _ =>
      let E := fresh in
      destruct (truthy_string x) eqn:E;
        [clear H | apply truthy_string_false in E; contradiction]
  end.
  reflexivity.
Qed.

Lemma inputs_missing_checked :
  getInput env INPUT_SERVICE_ACCOUNT_JSON = "" \/
  getInput env INPUT_DOCUMENT_ID = "" \/
  getInput env INPUT_SHEET_NAME = "" ->
  negb (truthy_string (getInput env INPUT_SERVICE_ACCOUNT_JSON))
  || negb (truthy_string (getInput env INPUT_DOCUMENT_ID))
  || negb (truthy_string (getInput env INPUT_SHEET_NAME)) = true.
Proof.
  intros [H | [H | H]]; apply truthy_string_false in H; rewrite H;
    cbn [negb orb]; rewrite ?orb_true_r; reflexivity.
Qed.

Lemma stage_filter (f : event -> bool) n (t : trace) :
  (forall ev, stage ev = n -> f ev = false) ->
  Forall (fun ev => stage ev = n) t -> filter f t = [].
Proof.
  intros Hf Ht. induction Ht as [|ev t Hev _ IH]; [reflexivity|].
  cbn [filter]. rewrite (Hf ev Hev). exact IH.
Qed.

Lemma stage_filter_all (f : event -> bool) n (t : trace) :
  (forall ev, stage ev = n -> f ev = true) ->
  Forall (fun ev => stage ev = n) t -> filter f t = t.
Proof.
  intros Hf Ht. induction Ht as [|ev t Hev _ IH]; [reflexivity|].
  cbn [filter]. rewrite (Hf ev Hev), IH. reflexivity.
Qed.

Lemma failed_app t1 t2 : failed (t1 ++ t2) = failed t1 || failed t2.
Proof. apply existsb_app. Qed.

Lemma failed_report t e : failed (t ++ [SetFailed e]) = true.
Proof. rewrite failed_app. cbn. apply orb_true_r. Qed.

(** A run that resolved without a failure report went through the whole
    body. *)
Lemma start_succeeded budget t :
  start B env budget = (t, Resolved) -> failed t = false ->
  start_try B env budget = (t, Ok tt).
Proof.
  unfold start. destruct (start_try B env budget) as [t' [[]|e|]];
    intros Hs Hf; inversion Hs; subst; [reflexivity|].
  rewrite failed_report in Hf. discriminate.
Qed.

(** The shape of a run that went through the whole body. *)
Lemma start_try_ok budget t :
  start_try B env budget = (t, Ok tt) ->
  exists tl issues rows,
    fetchPages B env budget 1 [] = (tl, Ok issues) /\
    formRows B env issues [] = (map query_call issues, Ok rows) /\
    t = tl ++ SheetsClear (getInput env INPUT_DOCUMENT_ID)
                          (getInput env INPUT_SHEET_NAME)
           :: map query_call issues ++
           [SheetsAppend (getInput env INPUT_DOCUMENT_ID)
              (getInput env INPUT_SHEET_NAME ++ "!A1:1")%string [header B];
            SheetsAppend (getInput env INPUT_DOCUMENT_ID)
              (getInput env INPUT_SHEET_NAME ++ "!A1:1")%string rows].
Proof.
  rewrite start_try_unfold. cbv zeta.
  destruct (negb _ || negb _ || negb _); [discriminate|].
  destruct (fetchPages B env budget 1 []) as [tl [issues|e|]];
    try discriminate.
  destruct (JSON_parse env _) as [[]|e]; [|discriminate].
  destruct (values_clear env _ _) as [[]|e]; [|discriminate].
  destruct (formRows B env issues []) as [tq [rows|e|]] eqn:Hrows;
    try discriminate.
  destruct (values_append env _ _ [header B]) as [[]|e]; [|discriminate].
  destruct (values_append env _ _ rows) as [[]|e]; [|discriminate].
  intros Ht. inversion Ht; subst.
  destruct (formRows_ok _ _ _ _ Hrows) as (-> & _).
  exists tl, issues, rows. repeat split; assumption || reflexivity.
Qed.

(** Every run, wherever it stops, has made its calls stage after stage:
    listing calls, at most one clear, metadata queries, at most two
    appends, at most one failure report. *)
Lemma start_shape budget :
  exists tl tc tq ta tf,
    fst (start B env budget) = tl ++ tc ++ tq ++ ta ++ tf /\
    Forall (fun ev => stage ev = 0) tl /\
    Forall (fun ev => stage ev = 1) tc /\
    Forall (fun ev => stage ev = 2) tq /\
    Forall (fun ev => stage ev = 3) ta /\
    Forall (fun ev => stage ev = 4) tf /\
    (inputs_present B env -> tl = fst (fetchPages B env budget 1 [])) /\
    (forall values, first_append ta = Some values -> values = [header B]).
Proof.
  unfold start. rewrite start_try_unfold. cbv zeta.
  destruct (negb _ || negb _ || negb _) eqn:Hcheck.
  { exists [], [], [], [], [SetFailed (Error missing_inputs_message)].
    repeat split; try (repeat constructor); try discriminate.
    intros Hp. rewrite (inputs_present_checked Hp) in Hcheck. discriminate. }
  pose proof (fetchPages_only_lists budget 1 []) as Hl.
  pose proof (fun issues => formRows_only_queries issues []) as Hq.
  destruct (fetchPages B env budget 1 []) as [tl [issues|e|]];
    cbn [fst] in Hl;
    [ specialize (Hq issues);
      destruct (JSON_parse env _) as [[]|e];
      [ destruct (values_clear env _ _) as [[]|e];
        [ destruct (formRows B env issues []) as [tq [rows|e|]];
          cbn [fst] in Hq;
          [ destruct (values_append env _ _ [header B]) as [[]|e];
            [ destruct (values_append env _ _ rows) as [[]|e] |] | |] |] |]
    | |];
    cbn [fst].
  all: repeat (progress (cbn [app]; rewrite <- ?app_assoc)).
  all: lazymatch goal with
       | |- context [?l ++ ?c :: ?q ++ [?h; ?r; SetFailed ?e]] =>
           exists l, [c], q, [h; r], [SetFailed e]
       | |- context [?l ++ ?c :: ?q ++ [?h; SetFailed ?e]] =>
           exists l, [c], q, [h], [SetFailed e]
       | |- context [?l ++ ?c :: ?q ++ [SetFailed ?e]] =>
           exists l, [c], q, [], [SetFailed e]
       | |- context [?l ++ ?c :: ?q ++ [?h; ?r]] =>
           exists l, [c], q, [h; r], []
       | |- context [?l ++ [?c; SetFailed ?e]] =>
           exists l, [c], [], [], [SetFailed e]
       | |- context [?l ++ [SetFailed ?e]] =>
           exists l, [], [], [], [SetFailed e]
       | |- context [?l ++ ?c :: ?q] => exists l, [c], q, [], []
       | Hl : Forall _ ?l |- _ => exists l, [], [], [], []
       end.
  all: split; [cbn [app]; rewrite ?app_nil_r; reflexivity|].
  all: repeat split; try (repeat constructor); try assumption.
  all: cbn [first_append]; intros values Hv; inversion Hv; reflexivity.
Qed.

Lemma first_append_app t1 t2 :
  first_append (t1 ++ t2) =
  match first_append t1 with
  | Some values => Some values
  | None => first_append t2
  end.
Proof.
  induction t1 as [|ev t1 IH]; [reflexivity|].
  destruct ev; cbn [app first_append]; auto.
Qed.

Lemma first_append_stage n t :
  n <> 3 -> Forall (fun ev => stage ev = n) t -> first_append t = None.
Proof.
  intros Hn Ht. induction Ht as [|ev t Hev _ IH]; [reflexivity|].
  destruct ev; cbn [first_append]; auto. cbn in Hev. congruence.
Qed.

Lemma first_append_header budget values :
  first_append (fst (start B env budget)) = Some values ->
  values = [header B].
Proof.
  destruct (start_shape budget)
    as (tl & tc & tq & ta & tf & -> & H0 & H1 & H2 & _ & H4 & _ & Hta).
  rewrite !first_append_app.
  rewrite (first_append_stage 0 tl), (first_append_stage 1 tc),
    (first_append_stage 2 tq), (first_append_stage 4 tf);
    try assumption; try discriminate.
  destruct (first_append ta) as [v|]; [|discriminate].
  intros Hv; inversion Hv; subst. apply Hta. reflexivity.
Qed.

Lemma start_list_calls budget :
  inputs_present B env ->
  filter is_list_call (fst (start B env budget)) =
  fst (fetchPages B env budget 1 []).
Proof.
  intros Hp.
  destruct (start_shape budget)
    as (tl & tc & tq & ta & tf & -> & H0 & H1 & H2 & H3 & H4 & Hfetch & _).
  rewrite <- (Hfetch Hp). rewrite !filter_app.
  rewrite (stage_filter_all is_list_call 0 tl),
    (stage_filter is_list_call 1 tc), (stage_filter is_list_call 2 tq),
    (stage_filter is_list_call 3 ta), (stage_filter is_list_call 4 tf);
    try assumption;
    try (intros [] Hs; cbn in Hs |- *; congruence).
  rewrite !app_nil_r. reflexivity.
Qed.

Lemma stage_block_sorted n (l1 l2 : trace) :
  Forall (fun ev => stage ev = n) l1 ->
  Forall (fun ev => n <= stage ev) l2 ->
  StronglySorted stage_le l2 ->
  StronglySorted stage_le (l1 ++ l2) /\
  Forall (fun ev => n <= stage ev) (l1 ++ l2).
Proof.
  intros H1 H2 Hs. induction H1 as [|ev l1 Hev _ [IHs IHa]]; [auto|].
  cbn [app]. split.
  - constructor; [exact IHs|].
    unfold stage_le. rewrite Hev. exact IHa.
  - constructor; [lia | exact IHa].
Qed.

Lemma stage_above_weaken n m (l : trace) :
  n <= m -> Forall (fun ev => m <= stage ev) l ->
  Forall (fun ev => n <= stage ev) l.
Proof.
  intros Hnm. apply Forall_impl. intros ev Hev. lia.
Qed.

Lemma start_sorted budget :
  StronglySorted stage_le (fst (start B env budget)).
Proof.
  destruct (start_shape budget)
    as (tl & tc & tq & ta & tf & -> & H0 & H1 & H2 & H3 & H4 & _).
  destruct (stage_block_sorted 4 tf [] H4 (Forall_nil _) (SSorted_nil _))
    as [S4 A4].
  rewrite app_nil_r in S4, A4.
  destruct (stage_block_sorted 3 ta tf H3
              (stage_above_weaken 3 4 tf ltac:(lia) A4) S4) as [S3 A3].
  destruct (stage_block_sorted 2 tq _ H2
              (stage_above_weaken 2 3 _ ltac:(lia) A3) S3) as [S2 A2].
  destruct (stage_block_sorted 1 tc _ H1
              (stage_above_weaken 1 2 _ ltac:(lia) A2) S2) as [S1 A1].
  exact (proj1 (stage_block_sorted 0 tl _ H0
                  (stage_above_weaken 0 1 _ ltac:(lia) A1) S1)).
Qed.

Lemma sheet_after_app t1 t2 s :
  sheet_after (t1 ++ t2) s = sheet_after t2 (sheet_after t1 s).
Proof. apply fold_left_app. Qed.

Lemma sheet_after_queries t s :
  Forall (fun ev => stage ev = 2) t -> sheet_after t s = s.
Proof.
  intros Ht. revert s. induction Ht as [|ev t Hev _ IH]; intros s;
    [reflexivity|].
  destruct ev; cbn in Hev; try discriminate. cbn. apply IH.
Qed.

Lemma query_calls_stage issues :
  Forall (fun ev => stage ev = 2) (map query_call issues).
Proof. induction issues; constructor; auto. Qed.

End Loops.

(** ** The input check *)

(** C7: when one of the three required inputs (credentials, document
    identifier, sheet name) is empty or missing, the run fails with the
    missing-input error and has made no call to a remote service: the only
    thing it did is to report that error. *)
Theorem missing_input_fails_before_any_call
  (B : Build) (env : Env (Response B)) (budget : nat) :
  getInput env INPUT_SERVICE_ACCOUNT_JSON = "" \/
  getInput env INPUT_DOCUMENT_ID = "" \/
  getInput env INPUT_SHEET_NAME = "" ->
  start B env budget = ([SetFailed (Error missing_inputs_message)], Resolved) /\
  filter is_network_call (fst (start B env budget)) = [].
Proof.
  intros Hmissing.
  assert (Hrun : start B env budget =
                 ([SetFailed (Error missing_inputs_message)], Resolved)).
  { unfold start. rewrite start_try_unfold. cbv zeta.
    rewrite (inputs_missing_checked B env Hmissing). reflexivity. }
  rewrite Hrun. split; reflexivity.
Qed.

Lemma missing_input_fails_before_any_call_witness :
  getInput Sample.ts_env_no_sheet INPUT_SHEET_NAME = "" /\
  Ts.start Sample.ts_env_no_sheet 5 =
    ([SetFailed (Error missing_inputs_message)], Resolved) /\
  filter is_network_call (fst (Ts.start Sample.ts_env_no_sheet 5)) = [].
Proof.
  split; [reflexivity|].
  apply (missing_input_fails_before_any_call Ts.build Sample.ts_env_no_sheet 5).
  right; right; reflexivity.
Defined.

(** ** The top-level handler *)

Lemma start_pending_fetching (B : Build) (env : Env (Response B)) budget :
  snd (start B env budget) = Pending ->
  exists t, fetchPages B env budget 1 [] = (t, Running).
Proof.
  unfold start. rewrite start_try_unfold. cbv zeta.
  destruct (negb _ || negb _ || negb _); [discriminate|].
  destruct (fetchPages B env budget 1 []) as [tl [issues|e|]];
    try discriminate; [|eauto].
  destruct (JSON_parse env _) as [[]|e]; [|discriminate].
  destruct (values_clear env _ _) as [[]|e]; [|discriminate].
  pose proof (formRows_not_running B env issues []) as Hnr.
  destruct (formRows B env issues []) as [tq [rows|e|]];
    try discriminate; [|contradiction Hnr; reflexivity].
  destruct (values_append env _ _ [header B]) as [[]|e]; [|discriminate].
  destruct (values_append env _ _ rows) as [[]|e]; discriminate.
Qed.

(** C9: [start] never rejects.  Whatever is thrown in the body (by the
    input check, a listing call, the parsing of the credentials, the clear,
    a metadata query or its reading, an append) is caught by the one handler
    and reported with [Core.setFailed], and the promise resolves.  The promise
    is settled as soon as the listing has answered an empty page or has
    failed within the budget of the loop. *)
Theorem start_never_rejects
  (B : Build) (env : Env (Response B)) (budget : nat) :
  (forall e, snd (start B env budget) <> Rejected e) /\
  (forall t e, start_try B env budget = (t, Throw e) ->
               start B env budget = (t ++ [SetFailed e], Resolved)) /\
  ((exists k, k < budget /\
      (page_of B env (1 + k) = Value [] \/
       exists e, page_of B env (1 + k) = Raise e)) ->
   snd (start B env budget) = Resolved).
Proof.
  split; [|split].
  - intros e. unfold start.
    destruct (start_try B env budget) as [t [[]|e'|]]; discriminate.
  - intros t e Hthrow. unfold start. rewrite Hthrow. reflexivity.
  - intros (k & Hk & Hend).
    destruct (snd (start B env budget)) as [|e|] eqn:Hs; [reflexivity| |].
    + exfalso. revert Hs. unfold start.
      destruct (start_try B env budget) as [t [[]|e'|]]; discriminate.
    + exfalso. apply start_pending_fetching in Hs. destruct Hs as [t Hrun].
      destruct (fetchPages_running B env budget 1 [] t Hrun k Hk)
        as (v & l & Hpage).
      destruct Hend as [Hend | [e Hend]]; congruence.
Qed.

Lemma start_never_rejects_witness :
  start Ts.build Sample.ts_env_no_sheet 5 =
    ([] ++ [SetFailed (Error missing_inputs_message)], Resolved) /\
  snd (start Ts.build Sample.ts_env 5) = Resolved.
Proof.
  split.
  - apply (proj1 (proj2 (start_never_rejects Ts.build Sample.ts_env_no_sheet 5))).
    reflexivity.
  - apply (proj2 (proj2 (start_never_rejects Ts.build Sample.ts_env 5))).
    exists 1. split; [lia | left; reflexivity].
Defined.

(** A listing that never answers an empty page keeps the loop running,
    whatever the budget: the promise stays pending. *)
Lemma endless_listing_never_settles budget :
  snd (Ts.start Sample.ts_env_endless budget) = Pending.
Proof.
  assert (Hloop : forall b page acc,
            snd (fetchPages Ts.build Sample.ts_env_endless b page acc) = Running).
  { induction b as [|b IH]; intros page acc; [reflexivity|].
    rewrite fetchPages_step. unfold page_of. cbn [Sample.ts_env_endless
      issues_listForRepo Sample.endless].
    specialize (IH (S page) (acc ++ [Sample.issueA])).
    destruct (fetchPages Ts.build Sample.ts_env_endless b (S page)
                (acc ++ [Sample.issueA])). exact IH. }
  unfold Ts.start, start. rewrite start_try_unfold. cbv zeta.
  change (negb _ || negb _ || negb _) with false. cbv iota.
  specialize (Hloop budget 1 []).
  destruct (fetchPages Ts.build Sample.ts_env_endless budget 1 [])
    as [tl [issues|e|]]; simpl in Hloop; try discriminate. reflexivity.
Qed.

(** ** Paging *)

(** C6: the loop asks for page 1 first, always with state [all]; when the
    listing answers [n] pages that are not empty and then an empty page, it
    makes exactly [n + 1] listing calls, for the pages 1 to [n + 1] in order,
    and returns the items of the first [n] pages, page after page, each page
    in the order it came.  With the three inputs given, these are all the
    listing calls of the run. *)
Theorem paging_stops_after_first_empty_page
  (B : Build) (env : Env (Response B)) (n budget : nat) :
  (forall p, 1 <= p <= n -> exists v l, page_of B env p = Value (v :: l)) ->
  page_of B env (S n) = Value [] ->
  n < budget ->
  let calls :=
    map (fun p => ListForRepo (context_repo_owner env) (context_repo_repo env)
                    "all" p) (seq 1 (S n)) in
  fetchPages B env budget 1 [] =
    (calls, Ok (List.concat (map (page_items B env) (seq 1 n)))) /\
  List.length calls = S n /\
  page_items B env (S n) = [] /\
  (inputs_present B env ->
   filter is_list_call (fst (start B env budget)) = calls).
Proof.
  intros Hfull Hempty Hbudget calls.
  assert (Hfetch : fetchPages B env budget 1 [] =
            (calls, Ok (List.concat (map (page_items B env) (seq 1 n))))).
  { apply (fetchPages_run B env n budget 1 [] Hbudget).
    - intros k Hk. apply Hfull. lia.
    - exact Hempty. }
  split; [exact Hfetch|]. split; [|split].
  - unfold calls. rewrite length_map, length_seq. reflexivity.
  - unfold page_items. rewrite Hempty. reflexivity.
  - intros Hp. rewrite (start_list_calls B env budget Hp), Hfetch.
    reflexivity.
Qed.

Lemma paging_stops_after_first_empty_page_witness :
  fetchPages Ts.build Sample.ts_env 5 1 [] =
    ([ListForRepo "octo" "demo" "all" 1; ListForRepo "octo" "demo" "all" 2],
     Ok [Sample.issueA; Sample.pullB]) /\
  filter is_list_call (fst (start Ts.build Sample.ts_env 5)) =
    [ListForRepo "octo" "demo" "all" 1; ListForRepo "octo" "demo" "all" 2].
Proof.
  assert (Hfull : forall p, 1 <= p <= 1 ->
            exists v l, page_of Ts.build Sample.ts_env p = Value (v :: l)).
  { intros p Hp. assert (p = 1) as -> by lia.
    exists Sample.issueA, [Sample.pullB]. reflexivity. }
  destruct (paging_stops_after_first_empty_page Ts.build Sample.ts_env 1 5
              Hfull eq_refl ltac:(lia)) as (Hfetch & _ & _ & Hcalls).
  split; [exact Hfetch|].
  apply Hcalls. repeat split; discriminate.
Defined.

(** ** Rows and the destination *)

(** C1: in a run that completes without a failure report, the rows that
    are appended are the rows of the fetched issues that are not pull
    requests, one row for each, in the order they were fetched; their number
    is the number of fetched issues less the number of pull requests among
    them; and the tab, cleared and then filled by the two appends, holds the
    header followed by these rows, one row more. *)
Theorem rows_are_the_issues_that_are_not_pull_requests
  (B : Build) (env : Env (Response B)) (budget : nat) (t : trace) :
  start B env budget = (t, Resolved) ->
  failed t = false ->
  exists tl issues rows,
    fetchPages B env budget 1 [] = (tl, Ok issues) /\
    Forall2 (fun value r => enriched_row B env value = Some r)
            (filter not_pull_request issues) rows /\
    List.length rows =
      List.length issues - List.length (filter is_pull_request issues) /\
    last t (SetFailed (Error "")) =
      SheetsAppend (getInput env INPUT_DOCUMENT_ID)
        (getInput env INPUT_SHEET_NAME ++ "!A1:1")%string rows /\
    forall before : sheet,
      sheet_after t before = header B :: rows /\
      List.length (sheet_after t before) =
        S (List.length issues - List.length (filter is_pull_request issues)).
Proof.
  intros Hrun Hok.
  apply start_succeeded in Hrun; [|exact Hok].
  destruct (start_try_ok B env budget t Hrun)
    as (tl & issues & rows & Hfetch & Hrows & ->).
  destruct (formRows_ok B env issues [] _ rows Hrows)
    as (_ & pushed & Hpushed & Hall).
  cbn [app] in Hpushed. subst pushed.
  assert (Hlen : List.length rows =
            List.length issues - List.length (filter is_pull_request issues)).
  { rewrite <- (Forall2_length Hall). apply not_pull_request_count. }
  assert (Hsheet : forall before,
            sheet_after
              (tl ++ SheetsClear (getInput env INPUT_DOCUMENT_ID)
                                 (getInput env INPUT_SHEET_NAME)
                  :: map query_call issues ++
                  [SheetsAppend (getInput env INPUT_DOCUMENT_ID)
                     (getInput env INPUT_SHEET_NAME ++ "!A1:1")%string
                     [header B];
                   SheetsAppend (getInput env INPUT_DOCUMENT_ID)
                     (getInput env INPUT_SHEET_NAME ++ "!A1:1")%string rows])
              before = header B :: rows).
  { intros before. rewrite sheet_after_app.
    change (sheet_after (SheetsClear ?d ?n :: ?rest) ?s0)
      with (sheet_after rest []).
    rewrite sheet_after_app.
    rewrite (sheet_after_queries (map query_call issues))
      by apply query_calls_stage.
    reflexivity. }
  exists tl, issues, rows. repeat split; try assumption.
  - match goal with |- last (?a ++ ?c :: ?q ++ [?h; ?r]) _ = _ =>
      replace (a ++ c :: q ++ [h; r]) with ((a ++ c :: q ++ [h]) ++ [r])
        by (rewrite <- app_assoc; cbn [app]; rewrite <- app_assoc; reflexivity)
    end.
    apply last_last.
  - apply Hsheet.
  - rewrite Hsheet. cbn [List.length]. rewrite Hlen. reflexivity.
Qed.

Lemma rows_are_the_issues_that_are_not_pull_requests_witness :
  exists tl issues rows,
    fetchPages Ts.build Sample.ts_env 5 1 [] = (tl, Ok issues) /\
    Forall2 (fun value r => enriched_row Ts.build Sample.ts_env value = Some r)
            (filter not_pull_request issues) rows /\
    List.length rows =
      List.length issues - List.length (filter is_pull_request issues) /\
    last (fst (Ts.start Sample.ts_env 5)) (SetFailed (Error "")) =
      SheetsAppend "doc" "Issues!A1:1" rows /\
    forall before : sheet,
      sheet_after (fst (Ts.start Sample.ts_env 5)) before =
        Ts.header :: rows /\
      List.length (sheet_after (fst (Ts.start Sample.ts_env 5)) before) =
        S (List.length issues - List.length (filter is_pull_request issues)).
Proof.
  apply (rows_are_the_issues_that_are_not_pull_requests
           Ts.build Sample.ts_env 5 (fst (Ts.start Sample.ts_env 5)));
    reflexivity.
Defined.

(** ** Metadata queries *)

(** C2, as the code has it: in a run that completes without a failure
    report, the metadata queries are exactly one for each fetched issue, pull
    request or not, in the order the issues were fetched, each keyed by the
    node identifier of its issue.  A pull request is queried like any other
    issue; only its row is left out. *)
Theorem every_fetched_issue_is_queried
  (B : Build) (env : Env (Response B)) (budget : nat) (t : trace) :
  start B env budget = (t, Resolved) ->
  failed t = false ->
  exists tl issues,
    fetchPages B env budget 1 [] = (tl, Ok issues) /\
    filter is_graphql_call t =
      map (fun value => Graphql (Issue.node_id value)) issues /\
    List.length (filter is_graphql_call t) = List.length issues.
Proof.
  intros Hrun Hok.
  apply start_succeeded in Hrun; [|exact Hok].
  destruct (start_try_ok B env budget t Hrun)
    as (tl & issues & rows & Hfetch & _ & ->).
  assert (Hq : filter is_graphql_call
                 (tl ++ SheetsClear (getInput env INPUT_DOCUMENT_ID)
                                    (getInput env INPUT_SHEET_NAME)
                     :: map query_call issues ++
                     [SheetsAppend (getInput env INPUT_DOCUMENT_ID)
                        (getInput env INPUT_SHEET_NAME ++ "!A1:1")%string
                        [header B];
                      SheetsAppend (getInput env INPUT_DOCUMENT_ID)
                        (getInput env INPUT_SHEET_NAME ++ "!A1:1")%string
                        rows])
               = map query_call issues).
  { rewrite filter_app. cbn [filter is_graphql_call]. rewrite filter_app.
    rewrite (stage_filter is_graphql_call 0 tl).
    - rewrite (stage_filter_all is_graphql_call 2 (map query_call issues)).
      + cbn [filter is_graphql_call app]. apply app_nil_r.
      + intros [] Hs; cbn in Hs |- *; congruence.
      + apply query_calls_stage.
    - intros [] Hs; cbn in Hs |- *; congruence.
    - pose proof (fetchPages_only_lists B env budget 1 []) as Hl.
      rewrite Hfetch in Hl. exact Hl. }
  exists tl, issues. split; [exact Hfetch|]. split.
  - exact Hq.
  - rewrite Hq. apply length_map.
Qed.

Lemma every_fetched_issue_is_queried_witness :
  exists tl issues,
    fetchPages Ts.build Sample.ts_env 5 1 [] = (tl, Ok issues) /\
    filter is_graphql_call (fst (Ts.start Sample.ts_env 5)) =
      map (fun value => Graphql (Issue.node_id value)) issues /\
    List.length (filter is_graphql_call (fst (Ts.start Sample.ts_env 5))) =
      List.length issues.
Proof.
  apply (every_fetched_issue_is_queried
           Ts.build Sample.ts_env 5 (fst (Ts.start Sample.ts_env 5)));
    reflexivity.
Defined.

(** C2 as written fails: a fetched pull request gets its metadata query,
    in either build. *)
Lemma pull_request_is_queried :
  fetchPages Ts.build Sample.ts_env 5 1 [] =
    ([ListForRepo "octo" "demo" "all" 1; ListForRepo "octo" "demo" "all" 2],
     Ok [Sample.issueA; Sample.pullB]) /\
  is_pull_request Sample.pullB = true /\
  In (Graphql (Issue.node_id Sample.pullB)) (fst (Ts.start Sample.ts_env 5)) /\
  In (Graphql (Issue.node_id Sample.pullB)) (fst (Js.start Sample.js_env 5)).
Proof.
  repeat split; cbn; auto 10.
Qed.

(** ** Order of the steps *)

(** C3, as the code has it: the calls of every run, wherever it stops,
    come stage after stage in the order of the code: the listing calls, then
    the clear of the destination, then the metadata queries (the rows are
    formed in the same loop), then the appends, then the failure report if
    any.  A run that completes without a failure report has made all the
    listing calls, then the clear, then one query for each fetched issue,
    then the append of the header, then the append of the rows.  So the
    destination is cleared before the rows are formed, and both appends come
    after. *)
Theorem calls_follow_the_order_of_the_code
  (B : Build) (env : Env (Response B)) (budget : nat) :
  StronglySorted stage_le (fst (start B env budget)) /\
  (forall t,
     start B env budget = (t, Resolved) -> failed t = false ->
     exists tl issues rows,
       fetchPages B env budget 1 [] = (tl, Ok issues) /\
       formRows B env issues [] =
         (map (fun value => Graphql (Issue.node_id value)) issues, Ok rows) /\
       t = tl
           ++ [SheetsClear (getInput env INPUT_DOCUMENT_ID)
                           (getInput env INPUT_SHEET_NAME)]
           ++ map (fun value => Graphql (Issue.node_id value)) issues
           ++ [SheetsAppend (getInput env INPUT_DOCUMENT_ID)
                 (getInput env INPUT_SHEET_NAME ++ "!A1:1")%string [header B];
               SheetsAppend (getInput env INPUT_DOCUMENT_ID)
                 (getInput env INPUT_SHEET_NAME ++ "!A1:1")%string rows]).
Proof.
  split; [apply start_sorted|].
  intros t Hrun Hok.
  apply start_succeeded in Hrun; [|exact Hok].
  exact (start_try_ok B env budget t Hrun).
Qed.

Lemma calls_follow_the_order_of_the_code_witness :
  exists tl issues rows,
    fetchPages Ts.build Sample.ts_env 5 1 [] = (tl, Ok issues) /\
    formRows Ts.build Sample.ts_env issues [] =
      (map (fun value => Graphql (Issue.node_id value)) issues, Ok rows) /\
    fst (Ts.start Sample.ts_env 5) =
      tl ++ [SheetsClear "doc" "Issues"]
         ++ map (fun value => Graphql (Issue.node_id value)) issues
         ++ [SheetsAppend "doc" "Issues!A1:1" [Ts.header];
             SheetsAppend "doc" "Issues!A1:1" rows].
Proof.
  apply (proj2 (calls_follow_the_order_of_the_code Ts.build Sample.ts_env 5)
           (fst (Ts.start Sample.ts_env 5))); reflexivity.
Defined.

(** C3 as written fails: the destination is cleared before the first
    metadata query, hence before any row is formed. *)
Lemma sheet_is_cleared_before_rows_are_formed :
  fst (Ts.start Sample.ts_env 5) =
    [ ListForRepo "octo" "demo" "all" 1;
      ListForRepo "octo" "demo" "all" 2;
      SheetsClear "doc" "Issues";
      Graphql "I_1";
      Graphql "PR_2";
      SheetsAppend "doc" "Issues!A1:1" [Ts.header];
      SheetsAppend "doc" "Issues!A1:1"
        [ Ts.mkRow Sample.issueA [Some "bug"; Some "ui"] [Some "ann"]
            (CString "Done", CNumber (3 # 1)) ] ] /\
  query_after_write (fst (Ts.start Sample.ts_env 5)) = true /\
  query_after_write (fst (Js.start Sample.js_env 5)) = true.
Proof.
  repeat split.
Qed.

(** ** The header *)

(** C5, as the code has it: the first append of a run, when the run gets
    that far, writes one row, the header of the build, which has eleven
    columns and is the same on every run.  The compiled [Importer.js] writes
    the header of the specification, with [Status] twice; the TypeScript
    source writes [Issue Status] in the second column and [Task Status] in
    the ninth. *)
Theorem header_is_fixed_in_each_build :
  (forall env budget values,
     first_append (fst (Js.start env budget)) = Some values ->
     values = [spec_header]) /\
  (forall env budget values,
     first_append (fst (Ts.start env budget)) = Some values ->
     values =
       [[ CString "#"; CString "Issue Status"; CString "Type";
          CString "Title"; CString "URI"; CString "Labels";
          CString "Assignees"; CString "Milestone"; CString "Task Status";
          CString "Story Points"; CString "Deadline" ]]) /\
  List.length Js.header = 11 /\ List.length Ts.header = 11.
Proof.
  repeat split.
  - intros env budget values.
    apply (first_append_header Js.build env budget values).
  - intros env budget values.
    apply (first_append_header Ts.build env budget values).
Qed.

Lemma header_is_fixed_in_each_build_witness :
  [Js.header] = [spec_header] /\
  [Ts.header] =
    [[ CString "#"; CString "Issue Status"; CString "Type";
       CString "Title"; CString "URI"; CString "Labels";
       CString "Assignees"; CString "Milestone"; CString "Task Status";
       CString "Story Points"; CString "Deadline" ]].
Proof.
  split.
  - apply (proj1 header_is_fixed_in_each_build Sample.js_env 5). reflexivity.
  - apply (proj1 (proj2 header_is_fixed_in_each_build) Sample.ts_env 5).
    reflexivity.
Defined.

(** C5 as written fails: the header that the TypeScript source writes is
    not the header of the specification. *)
Lemma typescript_header_is_not_the_spec_header :
  first_append (fst (Ts.start Sample.ts_env 5)) <> Some [spec_header].
Proof.
  cbn. intros H. inversion H.
Qed.

(** ** The layout of a row *)

(** C4, as the code has it: the row of an issue that is not a pull
    request has eleven cells: number, state, the text [Issue], title, url,
    the names of the labels joined with a comma and a space, the logins of
    the assignees joined the same way, the title of the milestone (undefined
    without a milestone), a ninth cell, the story points of the first linked
    project item (the default of the build when there are none, or when they
    are zero), and the due date of the milestone (undefined without a
    milestone).  In the TypeScript source the ninth cell is the status of the
    first linked project item, the empty string by default, and the default
    of the story points is the empty string; in the compiled [Importer.js]
    the ninth cell is the state of the milestone, undefined without a
    milestone, and the default of the story points is [N/A]. *)
Theorem row_has_eleven_cells_in_each_build :
  (forall (env : Env Ts.Response) value response item,
     is_pull_request value = false ->
     graphql env (Issue.node_id value) = Value response ->
     Ts.firstItem response = Value item ->
     formRows Ts.build env [value] [] =
       ([Graphql (Issue.node_id value)],
        Ok [[ CNumber (inject_Z (Issue.number value));
              CString (Issue.state value);
              CString "Issue";
              CString (Issue.title value);
              CString (Issue.html_url value);
              CString (join ", " (map Label.name (Issue.labels value)));
              CString (join ", " (map (fun a => Some (Assignee.login a))
                                      (Issue.assignees value)));
              opt_string_cell (Issue.milestone value) Milestone.title;
              string_or (Ts.status_name item) "";
              number_or (Ts.storyPoints_number item) "";
              due_on_cell (Issue.milestone value) ]])) /\
  (forall (env : Env Js.Response) value response item,
     is_pull_request value = false ->
     graphql env (Issue.node_id value) = Value response ->
     Js.firstItem response = Value item ->
     formRows Js.build env [value] [] =
       ([Graphql (Issue.node_id value)],
        Ok [[ CNumber (inject_Z (Issue.number value));
              CString (Issue.state value);
              CString "Issue";
              CString (Issue.title value);
              CString (Issue.html_url value);
              CString (join ", " (map Label.name (Issue.labels value)));
              CString (join ", " (map (fun a => Some (Assignee.login a))
                                      (Issue.assignees value)));
              opt_string_cell (Issue.milestone value) Milestone.title;
              opt_string_cell (Issue.milestone value) Milestone.state;
              number_or (Js.fieldValueByName_number item) "N/A";
              due_on_cell (Issue.milestone value) ]])).
Proof.
  split; intros env value response item Hpr Hq Hitem;
    rewrite formRows_step;
    cbn [Response Metadata extract mkRow Ts.build Js.build];
    rewrite Hq; unfold Ts.extract, Js.extract; rewrite Hitem, Hpr;
    reflexivity.
Qed.

Lemma row_has_eleven_cells_in_each_build_witness :
  formRows Ts.build Sample.ts_env [Sample.issueA] [] =
    ([Graphql "I_1"],
     Ok [[ CNumber (1 # 1); CString "open"; CString "Issue"; CString "A";
           CString "https://example.test/issues/1"; CString "bug, ui";
           CString "ann"; CString "M1"; CString "Done"; CNumber (3 # 1);
           CNull ]]) /\
  formRows Js.build Sample.js_env [Sample.issueA] [] =
    ([Graphql "I_1"],
     Ok [[ CNumber (1 # 1); CString "open"; CString "Issue"; CString "A";
           CString "https://example.test/issues/1"; CString "bug, ui";
           CString "ann"; CString "M1"; CString "open"; CNumber (3 # 1);
           CNull ]]).
Proof.
  split.
  - apply (proj1 row_has_eleven_cells_in_each_build
             Sample.ts_env Sample.issueA Sample.ts_linked
             (Some Sample.ts_item)); reflexivity.
  - apply (proj2 row_has_eleven_cells_in_each_build
             Sample.js_env Sample.issueA Sample.js_linked
             (Some Sample.js_item)); reflexivity.
Defined.

(** C4 as written fails for the compiled [Importer.js]: the ninth cell is
    the state of the milestone, so it is not a function of the answer to the
    metadata query.  Two issues with the same answer, in milestones of
    different states, differ in their ninth cell. *)
Lemma ninth_cell_of_compiled_build_is_not_the_board_status :
  ~ exists status_of : Js.Response -> cell,
      forall value response t r,
        is_pull_request value = false ->
        graphql Sample.js_env (Issue.node_id value) = Value response ->
        formRows Js.build Sample.js_env [value] [] = (t, Ok [r]) ->
        nth_error r 8 = Some (status_of response).
Proof.
  intros [status_of H].
  pose proof (H Sample.issueA Sample.js_linked _ _ eq_refl eq_refl eq_refl)
    as Hopen.
  pose proof (H Sample.issueA_closed_milestone Sample.js_linked _ _
                eq_refl eq_refl eq_refl) as Hclosed.
  cbn in Hopen, Hclosed. congruence.
Qed.

(** ** Issues on no project board *)

(** C8, as the code has it: when the answer to the metadata query of an
    issue names no linked project item ([projectItems] absent, or its [nodes]
    absent or empty), reading the status and the story points does not throw
    and the turn of the loop for this issue completes.  In the TypeScript
    source the row then carries the empty string both in the status cell (the
    ninth) and in the story-points cell (the tenth).  In the compiled
    [Importer.js] the story-points cell carries the default [N/A], and the
    ninth cell, under the header [Status], is the state of the milestone
    (undefined without a milestone), which the answer does not touch. *)
Theorem no_linked_item_gives_defaults :
  (forall (env : Env Ts.Response) value response,
     graphql env (Issue.node_id value) = Value response ->
     Ts.no_linked_item response = true ->
     Ts.extract response = Value (CString "", CString "") /\
     (exists rows,
        formRows Ts.build env [value] [] =
          ([Graphql (Issue.node_id value)], Ok rows)) /\
     (is_pull_request value = false ->
      exists r,
        formRows Ts.build env [value] [] =
          ([Graphql (Issue.node_id value)], Ok [r]) /\
        nth_error r 8 = Some (CString "") /\
        nth_error r 9 = Some (CString ""))) /\
  (forall (env : Env Js.Response) value response,
     graphql env (Issue.node_id value) = Value response ->
     Js.no_linked_item response = true ->
     Js.extract response = Value (CString "N/A") /\
     (exists rows,
        formRows Js.build env [value] [] =
          ([Graphql (Issue.node_id value)], Ok rows)) /\
     (is_pull_request value = false ->
      exists r,
        formRows Js.build env [value] [] =
          ([Graphql (Issue.node_id value)], Ok [r]) /\
        nth_error r 8 =
          Some (opt_string_cell (Issue.milestone value) Milestone.state) /\
        nth_error r 9 = Some (CString "N/A"))).
Proof.
  split; intros env value response Hq Hnone.
  - assert (Hx : Ts.extract response = Value (CString "", CString "")).
    { revert Hnone. unfold Ts.no_linked_item, Ts.extract, Ts.firstItem.
      destruct (Ts.node response) as [n|]; [|discriminate].
      destruct (Ts.projectItems n) as [items|]; [|reflexivity].
      destruct (Ts.nodes items) as [[|x l]|]; try reflexivity. discriminate. }
    split; [exact Hx|]. split.
    + rewrite formRows_step.
      cbn [Response Metadata extract mkRow Ts.build]. rewrite Hq, Hx.
      cbn [formRows ret]. eauto.
    + intros Hpr. rewrite formRows_step.
      cbn [Response Metadata extract mkRow Ts.build]. rewrite Hq, Hx, Hpr.
      cbn [formRows ret app]. eexists. split; [reflexivity|].
      split; reflexivity.
  - assert (Hx : Js.extract response = Value (CString "N/A")).
    { revert Hnone. unfold Js.no_linked_item, Js.extract, Js.firstItem.
      destruct (Js.node response) as [n|]; [|discriminate].
      destruct (Js.projectItems n) as [items|]; [|reflexivity].
      destruct (Js.nodes items) as [[|x l]|]; try reflexivity. discriminate. }
    split; [exact Hx|]. split.
    + rewrite formRows_step.
      cbn [Response Metadata extract mkRow Js.build]. rewrite Hq, Hx.
      cbn [formRows ret]. eauto.
    + intros Hpr. rewrite formRows_step.
      cbn [Response Metadata extract mkRow Js.build]. rewrite Hq, Hx, Hpr.
      cbn [formRows ret app]. eexists. split; [reflexivity|].
      split; reflexivity.
Qed.

Lemma no_linked_item_gives_defaults_witness :
  (exists r,
     formRows Ts.build Sample.ts_env [Sample.issueC] [] =
       ([Graphql "I_3"], Ok [r]) /\
     nth_error r 8 = Some (CString "") /\
     nth_error r 9 = Some (CString "")) /\
  (exists r,
     formRows Js.build Sample.js_env_unlinked [Sample.issueA] [] =
       ([Graphql "I_1"], Ok [r]) /\
     nth_error r 8 = Some (CString "open") /\
     nth_error r 9 = Some (CString "N/A")).
Proof.
  split.
  - apply (proj2 (proj2 (proj1 no_linked_item_gives_defaults
             Sample.ts_env Sample.issueC Sample.ts_unlinked
             eq_refl eq_refl))). reflexivity.
  - apply (proj2 (proj2 (proj2 no_linked_item_gives_defaults
             Sample.js_env_unlinked Sample.issueA Sample.js_unlinked
             eq_refl eq_refl))). reflexivity.
Defined.

(** C8 as written fails for the compiled [Importer.js]: an issue in an
    open milestone whose answer names no linked project item gets a row whose
    cell under the ninth header, [Status], is [open], and whose story-points
    cell is [N/A]: neither is empty or absent. *)
Lemma compiled_build_row_is_not_empty_without_project_item :
  Js.no_linked_item Sample.js_unlinked = true /\
  is_pull_request Sample.issueA = false /\
  formRows Js.build Sample.js_env_unlinked [Sample.issueA] [] =
    ([Graphql "I_1"],
     Ok [[ CNumber (1 # 1); CString "open"; CString "Issue"; CString "A";
           CString "https://example.test/issues/1"; CString "bug, ui";
           CString "ann"; CString "M1"; CString "open"; CString "N/A";
           CNull ]]) /\
  nth_error Js.header 8 = Some (CString "Status") /\
  empty_or_absent (CString "open") = false /\
  empty_or_absent (CString "N/A") = false.
Proof.
  repeat split.
Qed.

(** A null [node] in the answer is another matter: reading it throws. *)
Lemma null_node_throws :
  Ts.extract {| Ts.node := None |} = Raise (TypeError "projectItems") /\
  Js.extract {| Js.node := None |} = Raise (TypeError "projectItems").
Proof. split; reflexivity. Qed.

(** ** Story points of zero *)

Lemma number_or_zero q d : (q == 0)%Q -> number_or (Some q) d = CString d.
Proof.
  intros Hq. unfold number_or, truthy_number.
  apply Qeq_bool_iff in Hq. rewrite Hq. reflexivity.
Qed.

(** C10: story points of exactly zero on the first linked project item
    give the same cell as no story points at all, the default of the build
    (the empty string in the TypeScript source, [N/A] in the compiled
    [Importer.js]): two answers that differ only in that one has zero and the
    other has nothing are read alike, and so give the same row. *)
Theorem zero_story_points_read_as_absent :
  (forall zero none item0 item1 v q,
     Ts.firstItem zero = Value (Some item0) ->
     Ts.firstItem none = Value (Some item1) ->
     Ts.status item0 = Ts.status item1 ->
     Ts.storyPoints item0 = Some v -> Ts.number v = Some q -> (q == 0)%Q ->
     Ts.storyPoints item1 = None ->
     (exists status, Ts.extract zero = Value (status, CString "")) /\
     Ts.extract zero = Ts.extract none /\
     forall value labels assignees m0 m1,
       Ts.extract zero = Value m0 -> Ts.extract none = Value m1 ->
       Ts.mkRow value labels assignees m0 = Ts.mkRow value labels assignees m1) /\
  (forall zero none item0 item1 v q,
     Js.firstItem zero = Value (Some item0) ->
     Js.firstItem none = Value (Some item1) ->
     Js.fieldValueByName item0 = Some v -> Js.number v = Some q -> (q == 0)%Q ->
     Js.fieldValueByName item1 = None ->
     Js.extract zero = Value (CString "N/A") /\
     Js.extract zero = Js.extract none /\
     forall value labels assignees m0 m1,
       Js.extract zero = Value m0 -> Js.extract none = Value m1 ->
       Js.mkRow value labels assignees m0 = Js.mkRow value labels assignees m1).
Proof.
  split.
  - intros zero none item0 item1 v q H0 H1 Hst Hv Hn Hq Habs.
    assert (Hz : Ts.extract zero =
                 Value (string_or (Ts.status_name (Some item0)) "", CString "")).
    { unfold Ts.extract. rewrite H0. cbn [Ts.storyPoints_number].
      rewrite Hv, Hn, (number_or_zero q "" Hq). reflexivity. }
    assert (Ha : Ts.extract none =
                 Value (string_or (Ts.status_name (Some item0)) "", CString "")).
    { unfold Ts.extract. rewrite H1. cbn [Ts.storyPoints_number Ts.status_name].
      rewrite Habs, Hst. reflexivity. }
    split; [eauto|]. split; [congruence|].
    intros value labels assignees m0 m1 E0 E1. congruence.
  - intros zero none item0 item1 v q H0 H1 Hv Hn Hq Habs.
    assert (Hz : Js.extract zero = Value (CString "N/A")).
    { unfold Js.extract. rewrite H0. cbn [Js.fieldValueByName_number].
      rewrite Hv, Hn, (number_or_zero q "N/A" Hq). reflexivity. }
    assert (Ha : Js.extract none = Value (CString "N/A")).
    { unfold Js.extract. rewrite H1. cbn [Js.fieldValueByName_number].
      rewrite Habs. reflexivity. }
    split; [exact Hz|]. split; [congruence|].
    intros value labels assignees m0 m1 E0 E1. congruence.
Qed.

Lemma zero_story_points_read_as_absent_witness :
  Ts.extract (Sample.ts_with_points (Some {| Ts.number := Some (0 # 1) |})) =
    Ts.extract (Sample.ts_with_points None) /\
  Js.extract (Sample.js_with_points (Some {| Js.number := Some (0 # 1) |})) =
    Value (CString "N/A").
Proof.
  split.
  - refine (proj1 (proj2 (proj1 zero_story_points_read_as_absent
             (Sample.ts_with_points (Some {| Ts.number := Some (0 # 1) |}))
             (Sample.ts_with_points None) _ _ _ (0 # 1)
             eq_refl eq_refl eq_refl eq_refl eq_refl _ eq_refl))).
    reflexivity.
  - refine (proj1 (proj2 zero_story_points_read_as_absent
             (Sample.js_with_points (Some {| Js.number := Some (0 # 1) |}))
             (Sample.js_with_points None) _ _ _ (0 # 1)
             eq_refl eq_refl eq_refl eq_refl _ eq_refl)).
    reflexivity.
Defined.

(** * Failures, and what every run keeps *)

(** ** A run stops at the first call that fails *)

Section FailFast.

Variable B : Build.
Variable env : Env (Response B).

Lemma stops_silent {A} (r : outcome A) : stops_at_failure B env ([], r).
Proof.
  intros t1 ev t2 e Ht _. destruct t1; discriminate.
Qed.

Lemma stops_eval {A} (r : result A) : stops_at_failure B env (eval r).
Proof. destruct r; apply stops_silent. Qed.

Lemma stops_await {A} (ev : event) (r : result A) :
  call_error B env ev = match r with Raise e => Some e | Value _ => None end ->
  stops_at_failure B env (await ev r).
Proof.
  intros Hr t1 ev' t2 e Ht He.
  assert (t1 = [] /\ ev' = ev /\ t2 = []) as (-> & -> & ->).
  { destruct r; cbn in Ht; destruct t1 as [|x [|y t1]]; inversion Ht; auto. }
  split; [reflexivity|].
  rewrite Hr in He. destruct r; inversion He; reflexivity.
Qed.

Lemma stops_bind {A C} (m : M A) (k : A -> M C) :
  stops_at_failure B env m ->
  (forall a, stops_at_failure B env (k a)) ->
  stops_at_failure B env (bind m k).
Proof.
  intros Hm Hk. destruct m as [tm [a|e0|]].
  2, 3: intros t1 ev t2 e Ht He; cbn [bind fst snd] in *;
        destruct (Hm t1 ev t2 e Ht He) as [-> Hthrow]; cbn [snd] in Hthrow;
        inversion Hthrow; split; reflexivity.
  intros t1 ev t2 e Ht He. cbn [bind] in Ht |- *.
  specialize (Hk a). destruct (k a) as [tk rk]. cbn [fst snd] in *.
  apply app_eq_app in Ht. destruct Ht as [l [[H1 H2] | [H1 H2]]].
  - destruct l as [|x l].
    + rewrite app_nil_r in H1. subst tm. cbn [app] in H2.
      apply (Hk [] ev t2 e); [symmetry; exact H2 | exact He].
    + cbn [app] in H2. injection H2 as <- ->. subst tm.
      destruct (Hm t1 ev l e eq_refl He) as [_ Hthrow]. discriminate.
  - subst t1. apply (Hk l ev t2 e); [exact H2 | exact He].
Qed.

Lemma stops_fetchPages budget : forall page acc,
  stops_at_failure B env (fetchPages B env budget page acc).
Proof.
  induction budget as [|budget IH]; intros page acc; [apply stops_silent|].
  cbn [fetchPages]. apply stops_bind.
  - apply stops_await. cbn [call_error].
    destruct (issues_listForRepo env _ _ _ page); reflexivity.
  - intros issuesPage. destruct (0 <? List.length issuesPage)%nat;
      [apply IH | apply stops_silent].
Qed.

Lemma stops_formRows issues : forall acc,
  stops_at_failure B env (formRows B env issues acc).
Proof.
  induction issues as [|value rest IH]; intros acc; [apply stops_silent|].
  cbn [formRows]. apply stops_bind.
  - apply stops_await. cbn [call_error].
    destruct (graphql env (Issue.node_id value)); reflexivity.
  - intros response. apply stops_bind; [apply stops_eval|].
    intros metadata. destruct (is_pull_request value); apply IH.
Qed.

Lemma stops_start_try budget :
  stops_at_failure B env (start_try B env budget).
Proof.
  unfold start_try. apply stops_bind.
  { unfold checkInputs. cbv zeta.
    destruct (negb _ || negb _ || negb _); apply stops_silent. }
  intros [[serviceAccountCredentials documentId] sheetName].
  apply stops_bind; [apply stops_fetchPages|]. intros issuesData.
  apply stops_bind; [apply stops_eval|]. intros _.
  apply stops_bind.
  { apply stops_await. cbn [call_error].
    destruct (values_clear env documentId sheetName); reflexivity. }
  intros _. apply stops_bind; [apply stops_formRows|]. intros issueSheetsData.
  apply stops_bind.
  { apply stops_await. cbn [call_error].
    destruct (values_append env documentId _ [header B]); reflexivity. }
  intros _. apply stops_bind.
  { apply stops_await. cbn [call_error].
    destruct (values_append env documentId _ issueSheetsData); reflexivity. }
  intros _. apply stops_silent.
Qed.

End FailFast.

(** X1: no retry and no recovery.  In every run, a call to a remote
    service that is answered with an error (a listing call, a metadata query,
    the clear or an append) is the last call of the run: the body throws
    that very error, the only thing that follows is the report of it with
    [Core.setFailed], and the promise resolves. *)
Theorem failed_call_is_the_last_call
  (B : Build) (env : Env (Response B)) (budget : nat)
  (t1 : trace) (ev : event) (t2 : trace) (e : error) :
  fst (start B env budget) = t1 ++ ev :: t2 ->
  call_error B env ev = Some e ->
  start_try B env budget = (t1 ++ [ev], Throw e) /\
  t2 = [SetFailed e] /\
  snd (start B env budget) = Resolved.
Proof.
  intros Ht He. pose proof (stops_start_try B env budget) as Hstop.
  unfold start in *.
  destruct (start_try B env budget) as [t [[]|e'|]]; cbn [fst snd] in *.
  - destruct (Hstop t1 ev t2 e Ht He) as [_ Hthrow]. discriminate.
  - apply app_eq_app in Ht. destruct Ht as [l [[H1 H2] | [H1 H2]]].
    + destruct l as [|x l].
      * cbn [app] in H2. injection H2 as Hev _. subst ev. discriminate.
      * cbn [app] in H2. injection H2 as <- ->. subst t.
        destruct (Hstop t1 ev l e eq_refl He) as [-> Hthrow].
        inversion Hthrow; subst. auto.
    + destruct l as [|x l]; cbn [app] in H2.
      * injection H2 as Hev _. subst ev. discriminate.
      * injection H2 as _ H2. destruct l; discriminate.
  - destruct (Hstop t1 ev t2 e Ht He) as [_ Hthrow]. discriminate.
Qed.

Lemma failed_call_is_the_last_call_witness :
  start_try Ts.build Sample.ts_env_query_fails 5 =
    ([ ListForRepo "octo" "demo" "all" 1; ListForRepo "octo" "demo" "all" 2;
       SheetsClear "doc" "Issues"; Graphql "I_1" ] ++ [Graphql "PR_2"],
     Throw (Rejection "rate limit")) /\
  [SetFailed (Rejection "rate limit")] = [SetFailed (Rejection "rate limit")] /\
  snd (start Ts.build Sample.ts_env_query_fails 5) = Resolved.
Proof.
  apply (failed_call_is_the_last_call Ts.build Sample.ts_env_query_fails 5
           [ ListForRepo "octo" "demo" "all" 1;
             ListForRepo "octo" "demo" "all" 2;
             SheetsClear "doc" "Issues"; Graphql "I_1" ]
           (Graphql "PR_2") [SetFailed (Rejection "rate limit")]
           (Rejection "rate limit")); reflexivity.
Defined.

(** ** The calls of a run, whatever its end *)

Section EveryRun.

Variable B : Build.
Variable env : Env (Response B).

Lemma fetchPages_calls budget : forall page acc,
  exists k, k <= budget /\
    fst (fetchPages B env budget page acc) =
    map (list_call B env) (seq page k).
Proof.
  induction budget as [|budget IH]; intros page acc.
  - exists 0. split; [lia | reflexivity].
  - rewrite fetchPages_step.
    destruct (page_of B env page) as [[|v l]|e].
    + exists 1. split; [lia | reflexivity].
    + destruct (IH (S page) (acc ++ v :: l)) as (k & Hk & Hcalls).
      destruct (fetchPages B env budget (S page) (acc ++ v :: l)) as [t r].
      cbn [fst] in *. exists (S k). split; [lia|].
      cbn [seq map]. rewrite Hcalls. reflexivity.
    + exists 1. split; [lia | reflexivity].
Qed.

Lemma list_calls_stage page k :
  Forall (fun ev => stage ev = 0) (map (list_call B env) (seq page k)).
Proof.
  revert page. induction k as [|k IH]; intros page; cbn [seq map];
    constructor; auto.
Qed.

(** The calls of a run are: listing calls for the pages 1, 2, ... in
    order; then at most one clear; then metadata queries; then at most the
    append of the header and the append of the rows; then at most one
    failure report. *)
Lemma start_calls budget :
  let documentId := getInput env INPUT_DOCUMENT_ID in
  let sheetName := getInput env INPUT_SHEET_NAME in
  let range := (sheetName ++ "!A1:1")%string in
  exists k tc tq ta tf,
    fst (start B env budget) =
      map (list_call B env) (seq 1 k) ++ tc ++ tq ++ ta ++ tf /\
    k <= budget /\
    (tc = [] \/ tc = [SheetsClear documentId sheetName]) /\
    Forall (fun ev => stage ev = 2) tq /\
    (ta = [] \/
     (tc = [SheetsClear documentId sheetName] /\
      values_clear env documentId sheetName = Value tt /\
      exists tl issues rows,
        fetchPages B env budget 1 [] = (tl, Ok issues) /\
        formRows B env issues [] = (tq, Ok rows) /\
        (ta = [SheetsAppend documentId range [header B]] \/
         ta = [SheetsAppend documentId range [header B];
               SheetsAppend documentId range rows]))) /\
    (tf = [] \/ exists e, tf = [SetFailed e]).
Proof.
  cbv zeta. unfold start. rewrite start_try_unfold. cbv zeta.
  destruct (negb _ || negb _ || negb _).
  { exists 0, [], [], [], [SetFailed (Error missing_inputs_message)].
    repeat split; eauto; try constructor; lia. }
  destruct (fetchPages_calls budget 1 []) as (k & Hk & Hl).
  pose proof (fun issues => formRows_only_queries B env issues []) as Hq.
  destruct (fetchPages B env budget 1 []) as [tl0 [issues|e|]];
    cbn [fst] in Hl; subst tl0;
    [ specialize (Hq issues);
      destruct (JSON_parse env _) as [[]|e];
      [ destruct (values_clear env _ _) as [[]|e] eqn:Hclear;
        [ destruct (formRows B env issues []) as [tq [rows|e|]] eqn:Hrows;
          cbn [fst] in Hq;
          [ destruct (values_append env _ _ [header B]) as [[]|e];
            [ destruct (values_append env _ _ rows) as [[]|e] |] | |] |] |]
    | |];
    cbn [fst].
  all: repeat (progress (cbn [app]; rewrite <- ?app_assoc)).
  all: exists k.
  all: lazymatch goal with
       | |- context [?l ++ ?c :: ?q ++ [?h; ?r; SetFailed ?e]] =>
           exists [c], q, [h; r], [SetFailed e]
       | |- context [?l ++ ?c :: ?q ++ [?h; SetFailed ?e]] =>
           exists [c], q, [h], [SetFailed e]
       | |- context [?l ++ ?c :: ?q ++ [SetFailed ?e]] =>
           exists [c], q, [], [SetFailed e]
       | |- context [?l ++ ?c :: ?q ++ [?h; ?r]] =>
           exists [c], q, [h; r], []
       | |- context [?l ++ [?c; SetFailed ?e]] =>
           exists [c], [], [], [SetFailed e]
       | |- context [?l ++ [SetFailed ?e]] =>
           exists [], [], [], [SetFailed e]
       | |- context [?l ++ ?c :: ?q] => exists [c], q, [], []
       | |- _ => exists [], [], [], []
       end.
  all: split; [cbn [app]; rewrite ?app_nil_r; reflexivity|].
  all: repeat split; eauto 15; try apply Forall_nil.
  all: right; repeat split; eauto 15.
Qed.

Lemma failed_stage n (t : trace) :
  n <> 4 -> Forall (fun ev => stage ev = n) t -> failed t = false.
Proof.
  intros Hn Ht. induction Ht as [|ev t Hev _ IH]; [reflexivity|].
  unfold failed in *. cbn [existsb]. rewrite IH.
  destruct ev; cbn in Hev |- *; congruence.
Qed.

(** An append is made only on the document and the tab of the inputs, once
    the whole listing is read, the tab is cleared with success and every
    issue is enriched; it writes the header or the rows that were formed. *)
Lemma appended_rows_of_run budget d r values :
  In (SheetsAppend d r values) (fst (start B env budget)) ->
  d = getInput env INPUT_DOCUMENT_ID /\
  r = (getInput env INPUT_SHEET_NAME ++ "!A1:1")%string /\
  In (SheetsClear d (getInput env INPUT_SHEET_NAME))
     (fst (start B env budget)) /\
  values_clear env d (getInput env INPUT_SHEET_NAME) = Value tt /\
  exists tl issues tq rows,
    fetchPages B env budget 1 [] = (tl, Ok issues) /\
    formRows B env issues [] = (tq, Ok rows) /\
    (values = [header B] \/ values = rows).
Proof.
  destruct (start_calls budget)
    as (k & tc & tq & ta & tf & Ht & _ & Hc & Hq & Ha & Hf).
  rewrite Ht. clear Ht.
  intros Hin. repeat (apply in_app_or in Hin; destruct Hin as [Hin | Hin]).
  - pose proof (list_calls_stage 1 k) as Hs.
    rewrite Forall_forall in Hs. apply Hs in Hin. discriminate.
  - destruct Hc as [-> | ->]; [destruct Hin|].
    destruct Hin as [Hin | []]. discriminate.
  - rewrite Forall_forall in Hq. apply Hq in Hin. discriminate.
  - destruct Ha as [-> | (-> & Hclear & tl & issues & rows & Hfetch & Hrows & Hta)];
      [destruct Hin|].
    assert (Hd : d = getInput env INPUT_DOCUMENT_ID /\
                 r = (getInput env INPUT_SHEET_NAME ++ "!A1:1")%string /\
                 (values = [header B] \/ values = rows)).
    { destruct Hta as [-> | ->].
      - destruct Hin as [Hin | []]. inversion Hin; subst. auto.
      - destruct Hin as [Hin | [Hin | []]]; inversion Hin; subst; auto. }
    destruct Hd as (-> & -> & Hvalues).
    repeat split; eauto 10.
    apply in_or_app. right. left. reflexivity.
  - destruct Hf as [-> | [e ->]]; [destruct Hin|].
    destruct Hin as [Hin | []]. discriminate.
Qed.

Lemma failed_cons ev (t : trace) :
  failed (ev :: t) = is_set_failed ev || failed t.
Proof. reflexivity. Qed.

(** The body of the [try] block never reports a failure itself. *)
Lemma start_try_silent budget :
  failed (fst (start_try B env budget)) = false.
Proof.
  rewrite start_try_unfold. cbv zeta.
  destruct (negb _ || negb _ || negb _); [reflexivity|].
  pose proof (failed_stage 0 _ ltac:(discriminate)
                (fetchPages_only_lists B env budget 1 [])) as Hl.
  pose proof (fun issues =>
                failed_stage 2 _ ltac:(discriminate)
                  (formRows_only_queries B env issues [])) as Hq.
  destruct (fetchPages B env budget 1 []) as [tl0 [issues|e|]];
    cbn [fst] in Hl |- *; try exact Hl.
  specialize (Hq issues).
  destruct (JSON_parse env _) as [[]|e]; cbn [fst]; [|exact Hl].
  destruct (values_clear env _ _) as [[]|e]; cbn [fst].
  2: { rewrite failed_app, Hl. reflexivity. }
  destruct (formRows B env issues []) as [tq [rows|e|]];
    cbn [fst] in Hq |- *.
  2, 3: rewrite failed_app, failed_cons, Hl, Hq; reflexivity.
  destruct (values_append env _ _ [header B]) as [[]|e]; cbn [fst];
    rewrite failed_app, failed_cons, failed_app, Hl, Hq; reflexivity.
Qed.

End EveryRun.

(** X2: whatever the answers, the pages of the listing are asked for one
    after the other from page 1, each page once, none skipped, always for the
    repository of the workflow and with state [all]; there are never more
    listing calls than turns of the loop. *)
Theorem listing_pages_are_consecutive
  (B : Build) (env : Env (Response B)) (budget : nat) :
  exists k,
    k <= budget /\
    filter is_list_call (fst (start B env budget)) =
      map (fun page =>
             ListForRepo (context_repo_owner env) (context_repo_repo env)
               "all" page)
          (seq 1 k).
Proof.
  destruct (start_calls B env budget)
    as (k & tc & tq & ta & tf & -> & Hk & Hc & Hq & Ha & Hf).
  exists k. split; [exact Hk|]. rewrite !filter_app.
  rewrite (stage_filter_all is_list_call 0 _
             ltac:(intros [] Hs; cbn in Hs |- *; congruence)
             (list_calls_stage B env 1 k)).
  rewrite (stage_filter is_list_call 2 tq
             ltac:(intros [] Hs; cbn in Hs |- *; congruence) Hq).
  assert (Hc' : filter is_list_call tc = [])
    by (destruct Hc as [-> | ->]; reflexivity).
  assert (Ha' : filter is_list_call ta = []).
  { destruct Ha as [-> | (_ & _ & tl & issues & rows & _ & _ & [-> | ->])];
      reflexivity. }
  assert (Hf' : filter is_list_call tf = [])
    by (destruct Hf as [-> | [e ->]]; reflexivity).
  rewrite Hc', Ha', Hf', !app_nil_r. reflexivity.
Qed.

(** X3: a run reports at most one failure.  When it reports one, the
    report is the last thing it does (no call follows it), it carries the
    error thrown by the body, and there was no report before it. *)
Theorem at_most_one_failure_report
  (B : Build) (env : Env (Response B)) (budget : nat) :
  List.length (filter is_set_failed (fst (start B env budget))) <= 1 /\
  (failed (fst (start B env budget)) = true ->
   exists t e,
     start_try B env budget = (t, Throw e) /\
     fst (start B env budget) = t ++ [SetFailed e] /\
     failed t = false).
Proof.
  pose proof (start_try_silent B env budget) as Hsilent.
  assert (Hnone : forall t, failed t = false -> filter is_set_failed t = []).
  { induction t as [|ev t IH]; [reflexivity|].
    rewrite failed_cons. intros H. apply orb_false_iff in H.
    destruct H as [Hev Ht]. cbn [filter]. rewrite Hev. auto. }
  unfold start. destruct (start_try B env budget) as [t [[]|e|]];
    cbn [fst] in *.
  - rewrite (Hnone t Hsilent). split; [cbn; lia | congruence].
  - rewrite filter_app, (Hnone t Hsilent). split; [cbn; lia|].
    intros _. exists t, e. auto.
  - rewrite (Hnone t Hsilent). split; [cbn; lia | congruence].
Qed.

Lemma at_most_one_failure_report_witness :
  exists t e,
    start_try Ts.build Sample.ts_env_query_fails 5 = (t, Throw e) /\
    fst (start Ts.build Sample.ts_env_query_fails 5) = t ++ [SetFailed e] /\
    failed t = false.
Proof.
  apply (proj2 (at_most_one_failure_report
                  Ts.build Sample.ts_env_query_fails 5)).
  reflexivity.
Defined.

(** X4: nothing is appended to a tab that was not emptied first.  Every
    append of a run goes to the document and the tab named by the inputs, at
    range [A1:1]; it comes only after the whole listing was read, after the
    clear of that tab was made and answered without error, and after every
    fetched issue was enriched; and what it writes is either the header or
    the rows formed in this run. *)
Theorem appends_only_after_successful_clear
  (B : Build) (env : Env (Response B)) (budget : nat)
  (d r : string) (values : list row) :
  In (SheetsAppend d r values) (fst (start B env budget)) ->
  d = getInput env INPUT_DOCUMENT_ID /\
  r = (getInput env INPUT_SHEET_NAME ++ "!A1:1")%string /\
  In (SheetsClear d (getInput env INPUT_SHEET_NAME))
     (fst (start B env budget)) /\
  values_clear env d (getInput env INPUT_SHEET_NAME) = Value tt /\
  exists tl issues tq rows,
    fetchPages B env budget 1 [] = (tl, Ok issues) /\
    formRows B env issues [] = (tq, Ok rows) /\
    (values = [header B] \/ values = rows).
Proof.
  apply appended_rows_of_run.
Qed.

Lemma appends_only_after_successful_clear_witness :
  "doc" = getInput Sample.ts_env INPUT_DOCUMENT_ID /\
  "Issues!A1:1" = (getInput Sample.ts_env INPUT_SHEET_NAME ++ "!A1:1")%string /\
  In (SheetsClear "doc" (getInput Sample.ts_env INPUT_SHEET_NAME))
     (fst (start Ts.build Sample.ts_env 5)) /\
  values_clear Sample.ts_env "doc" (getInput Sample.ts_env INPUT_SHEET_NAME) =
    Value tt /\
  exists tl issues tq rows,
    fetchPages Ts.build Sample.ts_env 5 1 [] = (tl, Ok issues) /\
    formRows Ts.build Sample.ts_env issues [] = (tq, Ok rows) /\
    ([Ts.header] = [header Ts.build] \/ [Ts.header] = rows).
Proof.
  apply (appends_only_after_successful_clear Ts.build Sample.ts_env 5
           "doc" "Issues!A1:1" [Ts.header]).
  cbn. auto 10.
Defined.

(** ** Width of what is written *)

Lemma formRows_rows_all (B : Build) (env : Env (Response B))
  (P : row -> Prop) issues t rows :
  (forall value labels assignees metadata,
     P (mkRow B value labels assignees metadata)) ->
  formRows B env issues [] = (t, Ok rows) ->
  Forall P rows.
Proof.
  intros HP Hrun.
  destruct (formRows_ok B env issues [] t rows Hrun)
    as (_ & pushed & -> & Hall).
  clear Hrun. cbn [app]. induction Hall as [|value r l l' Hr _ IH]; constructor; auto.
  unfold enriched_row in Hr.
  destruct (graphql env (Issue.node_id value)) as [response|]; [|discriminate].
  destruct (extract B response) as [metadata|]; [|discriminate].
  inversion Hr; subst. apply HP.
Qed.

(** X5: in either build, every row that a run appends, the header and
    each data row alike, has exactly eleven cells: the data rows line up with
    the header, column for column, whatever the issues and the answers of the
    metadata service are. *)
Theorem every_appended_row_has_eleven_cells :
  (forall (env : Env Ts.Response) budget d r values cells,
     In (SheetsAppend d r values) (fst (Ts.start env budget)) ->
     In cells values -> List.length cells = 11) /\
  (forall (env : Env Js.Response) budget d r values cells,
     In (SheetsAppend d r values) (fst (Js.start env budget)) ->
     In cells values -> List.length cells = 11).
Proof.
  split; intros env budget d r values cells Hin Hcells.
  - destruct (appended_rows_of_run Ts.build env budget d r values Hin)
      as (_ & _ & _ & _ & tl & issues & tq & rows & _ & Hrows & Hvalues).
    destruct Hvalues as [-> | ->].
    + destruct Hcells as [<- | []]. reflexivity.
    + pose proof (formRows_rows_all Ts.build env
                    (fun c => List.length c = 11) issues tq rows) as Hall.
      rewrite Forall_forall in Hall. apply Hall; auto.
      intros value labels assignees [status storyPoints]. reflexivity.
  - destruct (appended_rows_of_run Js.build env budget d r values Hin)
      as (_ & _ & _ & _ & tl & issues & tq & rows & _ & Hrows & Hvalues).
    destruct Hvalues as [-> | ->].
    + destruct Hcells as [<- | []]. reflexivity.
    + pose proof (formRows_rows_all Js.build env
                    (fun c => List.length c = 11) issues tq rows) as Hall.
      rewrite Forall_forall in Hall. apply Hall; auto.
Qed.

Lemma every_appended_row_has_eleven_cells_witness :
  List.length
    (Ts.mkRow Sample.issueA [Some "bug"; Some "ui"] [Some "ann"]
       (CString "Done", CNumber (3 # 1))) = 11.
Proof.
  apply (proj1 every_appended_row_has_eleven_cells Sample.ts_env 5
           "doc" "Issues!A1:1"
           [Ts.mkRow Sample.issueA [Some "bug"; Some "ui"] [Some "ann"]
              (CString "Done", CNumber (3 # 1))]).
  - cbn. auto 10.
  - left. reflexivity.
Defined.

(** ** Where a failing run leaves the destination *)

Section Aborts.

Variable B : Build.
Variable env : Env (Response B).

Lemma fetchPages_fail n : forall budget page acc e,
  n < budget ->
  (forall k, k < n ->
     exists v l, page_of B env (page + k) = Value (v :: l)) ->
  page_of B env (page + n) = Raise e ->
  fetchPages B env budget page acc =
  (map (list_call B env) (seq page (S n)), Throw e).
Proof.
  induction n as [|n IH]; intros budget page acc e Hb Hfull Hfail;
    (destruct budget as [|budget]; [lia|]); rewrite fetchPages_step.
  - rewrite Nat.add_0_r in Hfail. rewrite Hfail. reflexivity.
  - destruct (Hfull 0 ltac:(lia)) as (v & l & Hp).
    rewrite Nat.add_0_r in Hp. rewrite Hp.
    rewrite (IH budget (S page) (acc ++ v :: l) e); [reflexivity | lia | |].
    + intros k Hk. replace (S page + k) with (page + S k) by lia.
      apply Hfull. lia.
    + replace (S page + n) with (page + S n) by lia. exact Hfail.
Qed.

Lemma formRows_abort value rest e done : forall acc,
  Forall (enriched B env) done ->
  enrichment B env value = Raise e ->
  formRows B env (done ++ value :: rest) acc =
  (map query_call (done ++ [value]), Throw e).
Proof.
  induction done as [|v done IH]; intros acc Hdone Hfail;
    cbn [app]; rewrite formRows_step.
  - unfold enrichment in Hfail.
    destruct (graphql env (Issue.node_id value)) as [response|e'].
    + rewrite Hfail. reflexivity.
    + inversion Hfail; subst. reflexivity.
  - inversion Hdone as [|? ? [metadata Hv] Hrest]; subst.
    unfold enrichment in Hv.
    destruct (graphql env (Issue.node_id v)) as [response|e'];
      [|discriminate].
    rewrite Hv.
    match goal with |- context [formRows B env _ ?a] =>
      rewrite (IH a Hrest Hfail) end.
    reflexivity.
Qed.

Lemma sheet_after_lists (t : trace) (s : sheet) :
  Forall (fun ev => stage ev = 0) t -> sheet_after t s = s.
Proof.
  intros Ht. revert s. induction Ht as [|ev t Hev _ IH]; intros s;
    [reflexivity|].
  destruct ev; cbn in Hev; try discriminate. cbn. apply IH.
Qed.

Lemma first_append_lists (t1 t2 : trace) n :
  n <> 3 -> Forall (fun ev => stage ev = n) t1 ->
  first_append (t1 ++ t2) = first_append t2.
Proof.
  intros Hn Ht. rewrite first_append_app, (first_append_stage n t1 Hn Ht).
  reflexivity.
Qed.

End Aborts.

(** X6: a failure of the enrichment of one issue (its metadata query is
    refused, or its answer cannot be read) aborts the run at that issue.  The
    issues before it were queried, the issues after it are not; nothing is
    appended, neither header nor rows; and since the tab was cleared before
    the loop, the destination is left empty: its former contents are gone and
    nothing has replaced them. *)
Theorem enrichment_failure_leaves_sheet_empty
  (B : Build) (env : Env (Response B)) (budget : nat)
  (tl : trace) (done : list Issue.t) (value : Issue.t) (rest : list Issue.t)
  (e : error) :
  inputs_present B env ->
  fetchPages B env budget 1 [] = (tl, Ok (done ++ value :: rest)) ->
  JSON_parse env (getInput env INPUT_SERVICE_ACCOUNT_JSON) = Value tt ->
  values_clear env (getInput env INPUT_DOCUMENT_ID)
    (getInput env INPUT_SHEET_NAME) = Value tt ->
  Forall (enriched B env) done ->
  enrichment B env value = Raise e ->
  start B env budget =
    (tl ++ [SheetsClear (getInput env INPUT_DOCUMENT_ID)
                        (getInput env INPUT_SHEET_NAME)]
        ++ map (fun v => Graphql (Issue.node_id v)) (done ++ [value])
        ++ [SetFailed e],
     Resolved) /\
  first_append (fst (start B env budget)) = None /\
  forall before : sheet, sheet_after (fst (start B env budget)) before = [].
Proof.
  intros Hp Hfetch Hparse Hclear Hdone Hfail.
  assert (Hrun : start B env budget =
    (tl ++ [SheetsClear (getInput env INPUT_DOCUMENT_ID)
                        (getInput env INPUT_SHEET_NAME)]
        ++ map query_call (done ++ [value]) ++ [SetFailed e], Resolved)).
  { unfold start. rewrite start_try_unfold. cbv zeta.
    rewrite (inputs_present_checked B env Hp), Hfetch, Hparse, Hclear.
    rewrite (formRows_abort B env value rest e done [] Hdone Hfail).
    cbn [app]. rewrite <- app_assoc. reflexivity. }
  pose proof (fetchPages_only_lists B env budget 1 []) as Hl.
  rewrite Hfetch in Hl. cbn [fst] in Hl.
  rewrite Hrun. cbn [fst]. split; [reflexivity|]. split.
  - rewrite (first_append_lists tl _ 0 ltac:(discriminate) Hl).
    cbn [app first_append].
    rewrite (first_append_lists _ _ 2 ltac:(discriminate)
               (query_calls_stage (done ++ [value]))).
    reflexivity.
  - intros before. rewrite sheet_after_app. cbn [app].
    change (sheet_after (SheetsClear ?d ?n :: ?t) ?s)
      with (sheet_after t []).
    rewrite sheet_after_app.
    rewrite (sheet_after_queries _ _ (query_calls_stage (done ++ [value]))).
    reflexivity.
Qed.

Lemma enrichment_failure_leaves_sheet_empty_witness :
  start Ts.build Sample.ts_env_query_fails 5 =
    ([ ListForRepo "octo" "demo" "all" 1; ListForRepo "octo" "demo" "all" 2;
       SheetsClear "doc" "Issues"; Graphql "I_1"; Graphql "PR_2";
       SetFailed (Rejection "rate limit") ], Resolved) /\
  first_append (fst (start Ts.build Sample.ts_env_query_fails 5)) = None /\
  forall before : sheet,
    sheet_after (fst (start Ts.build Sample.ts_env_query_fails 5)) before = [].
Proof.
  apply (enrichment_failure_leaves_sheet_empty
           Ts.build Sample.ts_env_query_fails 5
           [ ListForRepo "octo" "demo" "all" 1;
             ListForRepo "octo" "demo" "all" 2 ]
           [Sample.issueA] Sample.pullB [] (Rejection "rate limit")).
  - repeat split; discriminate.
  - reflexivity.
  - reflexivity.
  - reflexivity.
  - constructor; [|constructor]. eexists. reflexivity.
  - reflexivity.
Defined.

(** X7: a listing call that fails aborts the run before the destination is
    touched.  After [n] pages that are not empty, a failure on page [n + 1]
    ends the run with [n + 1] listing calls and the report of that failure;
    the issues already fetched are dropped, no metadata query is made, and
    the tab keeps the contents it had. *)
Theorem listing_failure_leaves_sheet_untouched
  (B : Build) (env : Env (Response B)) (n budget : nat) (e : error) :
  inputs_present B env ->
  (forall p, 1 <= p <= n -> exists v l, page_of B env p = Value (v :: l)) ->
  page_of B env (S n) = Raise e ->
  n < budget ->
  start B env budget =
    (map (fun page =>
            ListForRepo (context_repo_owner env) (context_repo_repo env)
              "all" page) (seq 1 (S n))
       ++ [SetFailed e],
     Resolved) /\
  filter is_graphql_call (fst (start B env budget)) = [] /\
  filter is_sheets_call (fst (start B env budget)) = [] /\
  forall before : sheet,
    sheet_after (fst (start B env budget)) before = before.
Proof.
  intros Hp Hfull Hfail Hbudget.
  assert (Hfetch : fetchPages B env budget 1 [] =
                   (map (list_call B env) (seq 1 (S n)), Throw e)).
  { apply (fetchPages_fail B env n budget 1 [] e Hbudget).
    - intros k Hk. apply Hfull. lia.
    - exact Hfail. }
  assert (Hrun : start B env budget =
            (map (list_call B env) (seq 1 (S n)) ++ [SetFailed e], Resolved)).
  { unfold start. rewrite start_try_unfold. cbv zeta.
    rewrite (inputs_present_checked B env Hp), Hfetch. reflexivity. }
  pose proof (list_calls_stage B env 1 (S n)) as Hl.
  rewrite Hrun. cbn [fst]. split; [reflexivity|]. repeat split.
  - rewrite filter_app.
    rewrite (stage_filter is_graphql_call 0 _
               ltac:(intros [] Hs; cbn in Hs |- *; congruence) Hl).
    reflexivity.
  - rewrite filter_app.
    rewrite (stage_filter is_sheets_call 0 _
               ltac:(intros [] Hs; cbn in Hs |- *; congruence) Hl).
    reflexivity.
  - intros before.
    rewrite sheet_after_app, (sheet_after_lists _ _ Hl). reflexivity.
Qed.

Lemma listing_failure_leaves_sheet_untouched_witness :
  start Ts.build Sample.ts_env_listing_fails 5 =
    ([ ListForRepo "octo" "demo" "all" 1; ListForRepo "octo" "demo" "all" 2;
       SetFailed (Rejection "bad gateway") ], Resolved) /\
  filter is_graphql_call (fst (start Ts.build Sample.ts_env_listing_fails 5))
    = [] /\
  filter is_sheets_call (fst (start Ts.build Sample.ts_env_listing_fails 5))
    = [] /\
  forall before : sheet,
    sheet_after (fst (start Ts.build Sample.ts_env_listing_fails 5)) before
    = before.
Proof.
  apply (listing_failure_leaves_sheet_untouched
           Ts.build Sample.ts_env_listing_fails 1 5
           (Rejection "bad gateway")).
  - repeat split; discriminate.
  - intros p Hp. assert (p = 1) as -> by lia.
    exists Sample.issueA, [Sample.pullB]. reflexivity.
  - reflexivity.
  - lia.
Defined.

(** X8: the credentials are parsed only once the whole listing is read, and
    before the destination is touched.  When they are not valid JSON, every
    listing call has already been made, the run ends with the report of the
    parse error, no metadata query is made and the tab keeps the contents it
    had. *)
Theorem bad_credentials_fail_after_listing
  (B : Build) (env : Env (Response B)) (budget : nat)
  (tl : trace) (issues : list Issue.t) (e : error) :
  inputs_present B env ->
  fetchPages B env budget 1 [] = (tl, Ok issues) ->
  JSON_parse env (getInput env INPUT_SERVICE_ACCOUNT_JSON) = Raise e ->
  start B env budget = (tl ++ [SetFailed e], Resolved) /\
  filter is_list_call (fst (start B env budget)) = tl /\
  filter is_graphql_call (fst (start B env budget)) = [] /\
  filter is_sheets_call (fst (start B env budget)) = [] /\
  forall before : sheet,
    sheet_after (fst (start B env budget)) before = before.
Proof.
  intros Hp Hfetch Hparse.
  assert (Hrun : start B env budget = (tl ++ [SetFailed e], Resolved)).
  { unfold start. rewrite start_try_unfold. cbv zeta.
    rewrite (inputs_present_checked B env Hp), Hfetch, Hparse. reflexivity. }
  pose proof (fetchPages_only_lists B env budget 1 []) as Hl.
  rewrite Hfetch in Hl. cbn [fst] in Hl.
  rewrite Hrun. cbn [fst]. split; [reflexivity|]. repeat split.
  - rewrite filter_app.
    rewrite (stage_filter_all is_list_call 0 _
               ltac:(intros [] Hs; cbn in Hs |- *; congruence) Hl).
    apply app_nil_r.
  - rewrite filter_app.
    rewrite (stage_filter is_graphql_call 0 _
               ltac:(intros [] Hs; cbn in Hs |- *; congruence) Hl).
    reflexivity.
  - rewrite filter_app.
    rewrite (stage_filter is_sheets_call 0 _
               ltac:(intros [] Hs; cbn in Hs |- *; congruence) Hl).
    reflexivity.
  - intros before.
    rewrite sheet_after_app, (sheet_after_lists _ _ Hl). reflexivity.
Qed.

Lemma bad_credentials_fail_after_listing_witness :
  start Ts.build Sample.ts_env_bad_credentials 5 =
    ([ ListForRepo "octo" "demo" "all" 1; ListForRepo "octo" "demo" "all" 2 ]
       ++ [SetFailed (Error "Unexpected end of JSON input")], Resolved).
Proof.
  apply (bad_credentials_fail_after_listing
           Ts.build Sample.ts_env_bad_credentials 5
           [ ListForRepo "octo" "demo" "all" 1;
             ListForRepo "octo" "demo" "all" 2 ]
           [Sample.issueA; Sample.pullB]
           (Error "Unexpected end of JSON input")).
  - repeat split; discriminate.
  - reflexivity.
  - reflexivity.
Defined.

(** ** Answers that cannot be read *)

(** X9: an answer of the metadata service whose [node] is null cannot be
    read: reading [projectItems] of it throws a [TypeError], which ends the
    loop at that issue.  This holds for a pull request as well, since the
    answer is read before the pull request is skipped: one unknown node among
    the fetched items, issue or pull request, fails the whole run. *)
Theorem null_node_aborts_even_for_a_pull_request :
  (forall (env : Env Ts.Response) value rest acc response,
     graphql env (Issue.node_id value) = Value response ->
     Ts.node response = None ->
     formRows Ts.build env (value :: rest) acc =
       ([Graphql (Issue.node_id value)], Throw (TypeError "projectItems"))) /\
  (forall (env : Env Js.Response) value rest acc response,
     graphql env (Issue.node_id value) = Value response ->
     Js.node response = None ->
     formRows Js.build env (value :: rest) acc =
       ([Graphql (Issue.node_id value)], Throw (TypeError "projectItems"))).
Proof.
  split; intros env value rest acc response Hq Hnode;
    rewrite formRows_step;
    cbn [Response Metadata extract mkRow Ts.build Js.build];
    rewrite Hq; unfold Ts.extract, Ts.firstItem, Js.extract, Js.firstItem;
    rewrite Hnode; reflexivity.
Qed.

Lemma null_node_aborts_even_for_a_pull_request_witness :
  is_pull_request Sample.pullB = true /\
  formRows Ts.build Sample.ts_env_null_node [Sample.pullB; Sample.issueA] [] =
    ([Graphql "PR_2"], Throw (TypeError "projectItems")) /\
  formRows Js.build Sample.js_env_null_node [Sample.pullB; Sample.issueA] [] =
    ([Graphql "PR_2"], Throw (TypeError "projectItems")).
Proof.
  split; [reflexivity|]. split.
  - apply (proj1 null_node_aborts_even_for_a_pull_request
             Sample.ts_env_null_node Sample.pullB [Sample.issueA] []
             {| Ts.node := None |}); reflexivity.
  - apply (proj2 null_node_aborts_even_for_a_pull_request
             Sample.js_env_null_node Sample.pullB [Sample.issueA] []
             {| Js.node := None |}); reflexivity.
Defined.

(** ** A repository without issues *)

(** X10: when the first page of the listing is empty, the run still goes
    through every step: one listing call, the clear, no metadata query, the
    append of the header and an append of no rows.  The tab is left with the
    header alone, whatever it held before. *)
Theorem empty_repository_leaves_header_only
  (B : Build) (env : Env (Response B)) (budget : nat) :
  let documentId := getInput env INPUT_DOCUMENT_ID in
  let sheetName := getInput env INPUT_SHEET_NAME in
  let range := (sheetName ++ "!A1:1")%string in
  inputs_present B env ->
  0 < budget ->
  page_of B env 1 = Value [] ->
  JSON_parse env (getInput env INPUT_SERVICE_ACCOUNT_JSON) = Value tt ->
  values_clear env documentId sheetName = Value tt ->
  values_append env documentId range [header B] = Value tt ->
  values_append env documentId range [] = Value tt ->
  start B env budget =
    ([ ListForRepo (context_repo_owner env) (context_repo_repo env) "all" 1;
       SheetsClear documentId sheetName;
       SheetsAppend documentId range [header B];
       SheetsAppend documentId range [] ],
     Resolved) /\
  forall before : sheet,
    sheet_after (fst (start B env budget)) before = [header B].
Proof.
  cbv zeta. intros Hp Hbudget Hpage Hparse Hclear Hheader Hrows.
  assert (Hfetch : fetchPages B env budget 1 [] = ([list_call B env 1], Ok [])).
  { destruct budget as [|budget]; [lia|].
    rewrite fetchPages_step, Hpage. reflexivity. }
  assert (Hrun : start B env budget =
    ([ list_call B env 1;
       SheetsClear (getInput env INPUT_DOCUMENT_ID)
                   (getInput env INPUT_SHEET_NAME);
       SheetsAppend (getInput env INPUT_DOCUMENT_ID)
         (getInput env INPUT_SHEET_NAME ++ "!A1:1")%string [header B];
       SheetsAppend (getInput env INPUT_DOCUMENT_ID)
         (getInput env INPUT_SHEET_NAME ++ "!A1:1")%string [] ], Resolved)).
  { unfold start. rewrite start_try_unfold. cbv zeta.
    rewrite (inputs_present_checked B env Hp), Hfetch, Hparse, Hclear.
    cbn [formRows ret]. rewrite Hheader, Hrows. reflexivity. }
  rewrite Hrun. split; reflexivity.
Qed.

Lemma empty_repository_leaves_header_only_witness :
  start Ts.build Sample.ts_env_empty 5 =
    ([ ListForRepo "octo" "demo" "all" 1;
       SheetsClear "doc" "Issues";
       SheetsAppend "doc" "Issues!A1:1" [Ts.header];
       SheetsAppend "doc" "Issues!A1:1" [] ],
     Resolved) /\
  forall before : sheet,
    sheet_after (fst (start Ts.build Sample.ts_env_empty 5)) before =
      [Ts.header].
Proof.
  apply (empty_repository_leaves_header_only Ts.build Sample.ts_env_empty 5);
    try reflexivity.
  - repeat split; discriminate.
  - lia.
Defined.

(** ** Only the first project item counts *)

Section SameReading.

Variable B : Build.
Variable env : Env (Response B).
Variable query : string -> result (Response B).

Hypothesis Hagree :
  forall id, agree_on (extract B) (graphql env id) (query id).

Lemma fetchPages_with_graphql budget : forall page acc,
  fetchPages B (with_graphql env query) budget page acc =
  fetchPages B env budget page acc.
Proof.
  induction budget as [|budget IH]; intros page acc; [reflexivity|].
  rewrite !fetchPages_step. unfold page_of, list_call.
  cbn [with_graphql context_repo_owner context_repo_repo issues_listForRepo].
  destruct (issues_listForRepo env _ _ _ page) as [[|v l]|e];
    try reflexivity; rewrite IH; reflexivity.
Qed.

Lemma formRows_with_graphql issues : forall acc,
  formRows B (with_graphql env query) issues acc = formRows B env issues acc.
Proof.
  induction issues as [|value rest IH]; intros acc; [reflexivity|].
  rewrite !formRows_step. cbn [with_graphql graphql].
  specialize (Hagree (Issue.node_id value)). unfold agree_on in Hagree.
  destruct (graphql env (Issue.node_id value)) as [r|e],
           (query (Issue.node_id value)) as [r'|e'];
    try contradiction; [|subst; reflexivity].
  rewrite Hagree. destruct (extract B r') as [metadata|e]; [|reflexivity].
  rewrite IH. reflexivity.
Qed.

Lemma start_with_graphql budget :
  start B (with_graphql env query) budget = start B env budget.
Proof.
  unfold start. rewrite !start_try_unfold. cbv zeta.
  cbn [with_graphql getInput JSON_parse values_clear values_append].
  rewrite fetchPages_with_graphql.
  destruct (negb _ || negb _ || negb _); [reflexivity|].
  destruct (fetchPages B env budget 1 []) as [tl [issues|e|]];
    try reflexivity.
  rewrite formRows_with_graphql. reflexivity.
Qed.

End SameReading.

(** X11: of the project items that the metadata query asks for (up to
    ten), a run uses the first one only.  Two metadata services whose answers
    fail alike, or agree on [response.node.projectItems?.nodes?.[0]], give
    the same run: the same calls in the same order, the same rows, the same
    end.  Further boards an issue is on never reach the sheet. *)
Theorem only_the_first_project_item_counts :
  (forall (env : Env Ts.Response) query budget,
     (forall id, agree_on Ts.firstItem (graphql env id) (query id)) ->
     Ts.start (with_graphql env query) budget = Ts.start env budget) /\
  (forall (env : Env Js.Response) query budget,
     (forall id, agree_on Js.firstItem (graphql env id) (query id)) ->
     Js.start (with_graphql env query) budget = Js.start env budget).
Proof.
  split; intros env query budget Hagree;
    [ apply (start_with_graphql Ts.build env query)
    | apply (start_with_graphql Js.build env query) ];
    intros id; specialize (Hagree id); unfold agree_on in *;
    cbn [Response extract Ts.build Js.build];
    destruct (graphql env id), (query id); auto;
    unfold Ts.extract, Js.extract; rewrite Hagree; reflexivity.
Qed.

Lemma only_the_first_project_item_counts_witness :
  Ts.start (with_graphql Sample.ts_env Sample.ts_graphql_more_boards) 5 =
  Ts.start Sample.ts_env 5.
Proof.
  apply (proj1 only_the_first_project_item_counts
           Sample.ts_env Sample.ts_graphql_more_boards 5).
  intros id. unfold Sample.ts_graphql_more_boards. cbn [graphql Sample.ts_env].
  unfold Sample.ts_graphql. destruct (String.eqb id "I_1"); reflexivity.
Defined.
